(** * STARK tutorial prover and verifier: a shallow embedding

    The development follows the two Python modules of the repository,
    [src/prover.py] and [src/verifier.py].

    - Python integers are [Z]; a security level is a bit count in [N], so
      that [2 ** security_level] is an integer.
    - Python strings are [string], one character per code point below 256.
    - The proof handed to the verifier is a dictionary of dynamically typed
      values, [gmap string value]; the built-ins applied to it return or
      raise ([outcome]), with the messages of the interpreter.
    - [hashlib.sha256] is implemented after FIPS 180-4 and [json.dumps] is
      written out for the two shapes the prover serializes, so that every
      digest below can be evaluated.
    - The closure [fib_with_trace] mutates a list and a dictionary of its
      caller; the model threads both through the recursion, which is bounded
      by fuel.  [compute_fibonacci] gives the recursion all the frames it
      needs; [compute_fibonacci_within] gives it the frames that the
      interpreter's recursion limit leaves and raises [RecursionError] when
      they run out.

    The interpreter's limit on the digits of [str] of an integer is not part
    of the model. *)

From Stdlib Require Import ZArith List String Ascii Lia DecimalString DecimalPos DecimalZ.
From stdpp Require Import gmap strings list fin_maps.
Import ListNotations.
Set Warnings "-register-all".
Local Open Scope Z_scope.

(** ** hashlib.sha256 *)

Module hashlib.

(** 32-bit words are integers in [0, 2^32); additions wrap around. *)
Definition add32 (a b : Z) : Z := (a + b) mod 2 ^ 32.

Definition rotr (n x : Z) : Z :=
  Z.lor (Z.shiftr x n) (Z.land (Z.shiftl x (32 - n)) (2 ^ 32 - 1)).

Definition not32 (x : Z) : Z := Z.lxor x (2 ^ 32 - 1).

Definition Ch (x y z : Z) : Z := Z.lxor (Z.land x y) (Z.land (not32 x) z).

Definition Maj (x y z : Z) : Z :=
  Z.lxor (Z.lxor (Z.land x y) (Z.land x z)) (Z.land y z).

Definition big_sigma0 (x : Z) : Z := Z.lxor (Z.lxor (rotr 2 x) (rotr 13 x)) (rotr 22 x).
Definition big_sigma1 (x : Z) : Z := Z.lxor (Z.lxor (rotr 6 x) (rotr 11 x)) (rotr 25 x).
Definition small_sigma0 (x : Z) : Z := Z.lxor (Z.lxor (rotr 7 x) (rotr 18 x)) (Z.shiftr x 3).
Definition small_sigma1 (x : Z) : Z := Z.lxor (Z.lxor (rotr 17 x) (rotr 19 x)) (Z.shiftr x 10).

(** The constants are the leading 32 fractional bits of the square roots
    (initial state) and cube roots (round constants) of the first primes. *)
Definition primes64 : list Z :=
  [2; 3; 5; 7; 11; 13; 17; 19; 23; 29; 31; 37; 41; 43; 47; 53;
   59; 61; 67; 71; 73; 79; 83; 89; 97; 101; 103; 107; 109; 113; 127; 131;
   137; 139; 149; 151; 157; 163; 167; 173; 179; 181; 191; 193; 197; 199; 211; 223;
   227; 229; 233; 239; 241; 251; 257; 263; 269; 271; 277; 281; 283; 293; 307; 311].

Fixpoint cube_root_bits (n : nat) (x r : Z) : Z :=
  match n with
  | O => r
  | S n' =>
      let c := r + 2 ^ Z.of_nat n' in
      cube_root_bits n' x (if c * c * c <=? x then c else r)
  end.

Definition frac_sqrt32 (p : Z) : Z := Z.sqrt (p * 2 ^ 64) mod 2 ^ 32.
Definition frac_cbrt32 (p : Z) : Z := cube_root_bits 40 (p * 2 ^ 96) 0 mod 2 ^ 32.

Definition round_constants : list Z := Eval vm_compute in map frac_cbrt32 primes64.

Record state := State { ra : Z; rb : Z; rc : Z; rd : Z; re : Z; rf : Z; rg : Z; rh : Z }.

Definition initial_state : state :=
  Eval vm_compute in
    match map frac_sqrt32 (firstn 8 primes64) with
    | [a; b; c; d; e; f; g; h] => State a b c d e f g h
    | _ => State 0 0 0 0 0 0 0 0
    end.

(** One compression round with round constant [k] and schedule word [w]. *)
Definition round (s : state) (kw : Z * Z) : state :=
  let '(k, w) := kw in
  let t1 := add32 (add32 (add32 (add32 (rh s) (big_sigma1 (re s))) (Ch (re s) (rf s) (rg s))) k) w in
  let t2 := add32 (big_sigma0 (ra s)) (Maj (ra s) (rb s) (rc s)) in
  State (add32 t1 t2) (ra s) (rb s) (rc s) (add32 (rd s) t1) (re s) (rf s) (rg s).

(** Message schedule; [ws] holds the words produced so far, newest first. *)
Fixpoint schedule (n : nat) (ws : list Z) : list Z :=
  match n with
  | O => ws
  | S n' =>
      let w := add32 (add32 (add32 (small_sigma1 (nth 1 ws 0)) (nth 6 ws 0))
                            (small_sigma0 (nth 14 ws 0))) (nth 15 ws 0) in
      schedule n' (w :: ws)
  end.

Fixpoint be_words (n : nat) (bs : list Z) : list Z :=
  match n, bs with
  | S n', b0 :: b1 :: b2 :: b3 :: rest =>
      (b0 * 2 ^ 24 + b1 * 2 ^ 16 + b2 * 2 ^ 8 + b3) :: be_words n' rest
  | _, _ => []
  end.

Definition compress (s : state) (block : list Z) : state :=
  let w := rev (schedule 48 (rev (be_words 16 block))) in
  let t := fold_left round (combine round_constants w) s in
  State (add32 (ra s) (ra t)) (add32 (rb s) (rb t)) (add32 (rc s) (rc t)) (add32 (rd s) (rd t))
        (add32 (re s) (re t)) (add32 (rf s) (rf t)) (add32 (rg s) (rg t)) (add32 (rh s) (rh t)).

Fixpoint be_bytes (n : nat) (x : Z) : list Z :=
  match n with
  | O => []
  | S n' => be_bytes n' (x / 256) ++ [x mod 256]
  end.

(** Padding: a one bit, zeros up to 56 mod 64 bytes, the bit length on 8 bytes. *)
Definition pad (msg : list Z) : list Z :=
  let len := Z.of_nat (length msg) in
  msg ++ [128] ++ repeat 0 (Z.to_nat ((55 - len) mod 64)) ++ be_bytes 8 (8 * len).

Fixpoint absorb (n : nat) (s : state) (bs : list Z) : state :=
  match n with
  | O => s
  | S n' => absorb n' (compress s (firstn 64 bs)) (skipn 64 bs)
  end.

Definition digest (msg : list Z) : state :=
  let p := pad msg in absorb (length p / 64) initial_state p.

Definition hexdigits : string := "0123456789abcdef".

Definition nibble (x : Z) : ascii :=
  nth (Z.to_nat (x mod 16)) (list_ascii_of_string hexdigits) "0"%char.

Definition hex8 (w : Z) (tail : string) : string :=
  String (nibble (w / 2 ^ 28)) (String (nibble (w / 2 ^ 24))
  (String (nibble (w / 2 ^ 20)) (String (nibble (w / 2 ^ 16))
  (String (nibble (w / 2 ^ 12)) (String (nibble (w / 2 ^ 8))
  (String (nibble (w / 2 ^ 4)) (String (nibble w) tail))))))).

Definition hex_of_state (s : state) : string :=
  hex8 (ra s) (hex8 (rb s) (hex8 (rc s) (hex8 (rd s)
  (hex8 (re s) (hex8 (rf s) (hex8 (rg s) (hex8 (rh s) EmptyString))))))).

(** [s.encode()]: UTF-8, here for code points below 256. *)
Definition encode (s : string) : list Z :=
  flat_map (fun c : ascii =>
              let n := Z.of_N (N_of_ascii c) in
              if n <? 128 then [n] else [192 + n / 64; 128 + n mod 64])
           (list_ascii_of_string s).

(** [hashlib.sha256(s.encode()).hexdigest()] *)
Definition sha256_hexdigest (s : string) : string := hex_of_state (digest (encode s)).

End hashlib.

(** ** Python values, exceptions and the built-ins the two modules use *)

Module py.

(** A float is a sign, a mantissa and a binary exponent, or a special value. *)
Inductive pyfloat :=
  | FFinite (neg : bool) (m : N) (e : Z)
  | FInf (neg : bool)
  | FNaN.

(** The values a proof dictionary can hold (what [json.load] produces). *)
Inductive value :=
  | VNone
  | VBool (b : bool)
  | VInt (z : Z)
  | VFloat (f : pyfloat)
  | VStr (s : string)
  | VList (l : list value)
  | VDict (d : gmap string value).

Inductive exn :=
  | TypeError (msg : string)
  | KeyError (key : string)
  | ValueError (msg : string)
  | RecursionError (msg : string).

(** A call either returns or raises. *)
Inductive outcome (A : Type) :=
  | Return (a : A)
  | Raise (e : exn).
Arguments Return {A} a.
Arguments Raise {A} e.

#[global] Instance outcome_ret : MRet outcome := @Return.

#[global] Instance outcome_bind : MBind outcome := fun A B f m =>
  match m with
  | Return a => f a
  | Raise e => Raise e
  end.

(** [repr] of floats and containers is left to the interpreter. *)
Class PyRepr := py_repr : value -> string.

Definition squote : string := String (ascii_of_nat 39) EmptyString.
Definition dquote : string := String (ascii_of_nat 34) EmptyString.

(** [str(z)] for an integer: decimal digits with a leading minus sign. *)
Definition str_int (z : Z) : string := NilZero.string_of_int (Z.to_int z).

(** [str(v)], also what an f-string placeholder prints. *)
Definition py_str `{PyRepr} (v : value) : string :=
  match v with
  | VNone => "None"
  | VBool true => "True"
  | VBool false => "False"
  | VInt z => str_int z
  | VStr s => s
  | VFloat _ | VList _ | VDict _ => py_repr v
  end.

Definition str_exn (e : exn) : string :=
  match e with
  | TypeError msg | ValueError msg | RecursionError msg => msg
  | KeyError key => squote +:+ key +:+ squote
  end.

Definition type_name (v : value) : string :=
  match v with
  | VNone => "NoneType"
  | VBool _ => "bool"
  | VInt _ => "int"
  | VFloat _ => "float"
  | VStr _ => "str"
  | VList _ => "list"
  | VDict _ => "dict"
  end.

(** [bool(v)] *)
Definition truthy (v : value) : bool :=
  match v with
  | VNone => false
  | VBool b => b
  | VInt z => negb (z =? 0)
  | VFloat (FFinite _ m _) => negb (m =? 0)%N
  | VFloat _ => true
  | VStr s => negb (String.length s =? 0)%nat
  | VList l => negb (length l =? 0)%nat
  | VDict d => negb (size d =? 0)%nat
  end.

(** [len(v)] *)
Definition py_len (v : value) : outcome Z :=
  match v with
  | VStr s => Return (Z.of_nat (String.length s))
  | VList l => Return (Z.of_nat (length l))
  | VDict d => Return (Z.of_nat (size d))
  | _ => Raise (TypeError ("object of type " +:+ squote +:+ type_name v +:+ squote +:+ " has no len()"))
  end.

Definition chars (s : string) : list string :=
  map (fun c => String c EmptyString) (list_ascii_of_string s).

(** The items a [for] loop or a generator visits. *)
Definition py_iter (v : value) : outcome (list value) :=
  match v with
  | VStr s => Return (map VStr (chars s))
  | VList l => Return l
  | VDict d => Return (map VStr (map fst (map_to_list d)))
  | _ => Raise (TypeError (squote +:+ type_name v +:+ squote +:+ " object is not iterable"))
  end.

(** [needle in hay] on strings is the substring test. *)
Fixpoint str_contains (needle hay : string) : bool :=
  String.prefix needle hay ||
  match hay with
  | EmptyString => false
  | String _ hay' => str_contains needle hay'
  end.

(** [c in hay] with a string on the right. *)
Definition in_str (c : value) (hay : string) : outcome bool :=
  match c with
  | VStr s => Return (str_contains s hay)
  | _ => Raise (TypeError ("'in <string>' requires string as left operand, not " +:+ type_name c))
  end.

(** [all(test(x) for x in items)]: stops at the first false or the first raise. *)
Fixpoint py_all {A} (test : A -> outcome bool) (items : list A) : outcome bool :=
  match items with
  | [] => Return true
  | x :: rest =>
      match test x with
      | Return true => py_all test rest
      | Return false => Return false
      | Raise e => Raise e
      end
  end.

(** [for x in items: if test(x): return ...]: whether some item leaves the loop. *)
Fixpoint first_hit {A} (test : A -> outcome bool) (items : list A) : outcome bool :=
  match items with
  | [] => Return false
  | x :: rest =>
      match test x with
      | Return true => Return true
      | Return false => first_hit test rest
      | Raise e => Raise e
      end
  end.

(** [isinstance(v, int)]; [bool] is a subclass of [int]. *)
Definition as_int (v : value) : option Z :=
  match v with
  | VInt z => Some z
  | VBool b => Some (if b then 1 else 0)
  | _ => None
  end.

(** Exact comparison of a float with an integer. *)
Definition float_ge_int (f : pyfloat) (n : Z) : bool :=
  match f with
  | FNaN => false
  | FInf neg => negb neg
  | FFinite neg m e =>
      let v := if neg then - Z.of_N m else Z.of_N m in
      if 0 <=? e then n <=? v * 2 ^ e else n * 2 ^ (- e) <=? v
  end.

(** [v >= n] with an integer on the right. *)
Definition py_ge_int (v : value) (n : Z) : outcome bool :=
  match v with
  | VInt z => Return (n <=? z)
  | VBool b => Return (n <=? (if b then 1 else 0))
  | VFloat f => Return (float_ge_int f n)
  | _ => Raise (TypeError ("'>=' not supported between instances of " +:+ squote +:+ type_name v
                           +:+ squote +:+ " and 'int'"))
  end.

(** [v + s] with a string on the right. *)
Definition py_add_str (v : value) (s : string) : outcome string :=
  match v with
  | VStr a => Return (a +:+ s)
  | VList _ => Raise (TypeError ("can only concatenate list (not " +:+ dquote +:+ "str" +:+ dquote
                                 +:+ ") to list"))
  | _ => Raise (TypeError ("unsupported operand type(s) for +: " +:+ squote +:+ type_name v
                           +:+ squote +:+ " and 'str'"))
  end.

(** [v == s] with a string on the right. *)
Definition py_eq_str (v : value) (s : string) : bool :=
  match v with
  | VStr a => String.eqb a s
  | _ => false
  end.

(** [d[key]] *)
Definition getitem (d : gmap string value) (key : string) : outcome value :=
  match d !! key with
  | Some v => Return v
  | None => Raise (KeyError key)
  end.

(** [d.get(key, dflt)] *)
Definition get (d : gmap string value) (key : string) (dflt : value) : value :=
  default dflt (d !! key).

(** [s[:n]] *)
Definition str_take (n : nat) (s : string) : string := substring 0 n s.

(** [sep.join(items)] *)
Fixpoint join (sep : string) (items : list string) : string :=
  match items with
  | [] => EmptyString
  | [x] => x
  | x :: rest => x +:+ sep +:+ join sep rest
  end.

(** [json.dumps] of a key and an already serialized value, of an object,
    of an array and of a string that needs no escaping. *)
Definition json_string (s : string) : string := dquote +:+ s +:+ dquote.
Definition json_member (key body : string) : string := json_string key +:+ ": " +:+ body.
Definition json_object (members : list string) : string := "{" +:+ join ", " members +:+ "}".
Definition json_array (items : list string) : string := "[" +:+ join ", " items +:+ "]".

End py.

(** ** prover.py *)

Module prover.
Import py.

(** The two values of a step's ['operation'] entry. *)
Inductive Operation := memo_lookup | fib_compute.

Definition operation_name (op : Operation) : string :=
  match op with
  | memo_lookup => "memo_lookup"
  | fib_compute => "fib_compute"
  end.

(** One entry of [trace_steps]: the dictionary with the keys
    ['step'], ['operation'], ['input'], ['output'] and ['depth']. *)
Record StepRecord := Step {
  step : Z;
  operation : Operation;
  input : Z;
  output : Z;
  depth : Z
}.

Record ProofTrace := Trace {
  steps : list StepRecord;
  inputs_n : Z;
  outputs_result : Z
}.

Record STARKProver := Prover {
  security_level : N;
  proof_data : gmap string value
}.

(** [STARKProver(security_level)] *)
Definition init (security_level : N) : STARKProver := Prover security_level ∅.

(** The two variables the closure [fib_with_trace] shares with its caller. *)
Record Env := MkEnv {
  trace_steps : list StepRecord;
  memo : gmap Z Z
}.

(** [trace_steps.append({'step': len(trace_steps), ...})] *)
Definition append_step (env : Env) (op : Operation) (num out d : Z) : Env :=
  MkEnv (trace_steps env ++ [Step (Z.of_nat (length (trace_steps env))) op num out d])
        (memo env).

(** [memo[num] = result] *)
Definition memo_store (env : Env) (num result : Z) : Env :=
  MkEnv (trace_steps env) (<[num := result]> (memo env)).

(** The inner function of [compute_fibonacci]; [fuel] bounds the depth of
    the recursion and [None] means that it was exhausted. *)
Fixpoint fib_with_trace (fuel : nat) (num d : Z) (env : Env) : option (Z * Env) :=
  match fuel with
  | O => None
  | S fuel' =>
      match memo env !! num with
      | Some v => Some (v, append_step env memo_lookup num v d)
      | None =>
          '(result, env') ←
            (if num =? 0 then Some (0, env)
             else if num =? 1 then Some (1, env)
             else
               '(a, env1) ← fib_with_trace fuel' (num - 1) (d + 1) env;
               '(b, env2) ← fib_with_trace fuel' (num - 2) (d + 1) env1;
               Some (a + b, env2));
          Some (result, append_step (memo_store env' num result) fib_compute num result d)
      end
  end.

(** A recursion depth that the call for [n] never exceeds
    (see [fib_with_trace_terminates]). *)
Definition depth_bound (n : Z) : nat := S (Z.to_nat n).

Definition compute_fibonacci (self : STARKProver) (n : Z) : outcome (Z * ProofTrace) :=
  if n <? 0 then Raise (ValueError "n must be non-negative")
  else
    match fib_with_trace (depth_bound n) n 0 (MkEnv [] ∅) with
    | Some (result, env) => Return (result, Trace (trace_steps env) n result)
    | None => Raise (RecursionError "maximum recursion depth exceeded")
    end.

(** [compute_fibonacci] under the interpreter's recursion limit: [frames]
    is the number of frames that the limit still allows when the body calls
    [fib_with_trace] (the limit less the frames of the callers).  A call that
    finds no frame left raises [RecursionError]; neither [fib_with_trace]
    nor [compute_fibonacci] catches it. *)
Definition compute_fibonacci_within (frames : nat) (self : STARKProver) (n : Z)
    : outcome (Z * ProofTrace) :=
  if n <? 0 then Raise (ValueError "n must be non-negative")
  else
    match fib_with_trace frames n 0 (MkEnv [] ∅) with
    | Some (result, env) => Return (result, Trace (trace_steps env) n result)
    | None => Raise (RecursionError "maximum recursion depth exceeded")
    end.

(** [json.dumps(trace.to_dict(), sort_keys=True)] *)
Definition json_step (s : StepRecord) : string :=
  json_object [json_member "depth" (str_int (depth s));
               json_member "input" (str_int (input s));
               json_member "operation" (json_string (operation_name (operation s)));
               json_member "output" (str_int (output s));
               json_member "step" (str_int (step s))].

Definition json_trace (t : ProofTrace) : string :=
  json_object [json_member "inputs" (json_object [json_member "n" (str_int (inputs_n t))]);
               json_member "outputs"
                 (json_object [json_member "result" (str_int (outputs_result t))]);
               json_member "steps" (json_array (map json_step (steps t)))].

Definition _commit_to_trace (self : STARKProver) (trace : ProofTrace) : string :=
  let trace_json := json_trace trace in
  hashlib.sha256_hexdigest trace_json.

Definition _evaluate_constraints (self : STARKProver) (trace : ProofTrace) : list Z :=
  fold_left
    (fun evaluations s =>
       let constraint_value := output s mod 2 ^ Z.of_N (security_level self) in
       evaluations ++ [constraint_value])
    (steps trace) [].

Definition _generate_challenge (self : STARKProver) (commitment : string) : string :=
  let challenge_input := commitment +:+ str_int (Z.of_N (security_level self)) in
  str_take 16 (hashlib.sha256_hexdigest challenge_input).

(** [l[::2]] *)
Fixpoint stride2 {A} (l : list A) : list A :=
  match l with
  | x :: _ :: rest => x :: stride2 rest
  | _ => l
  end.

(** The body of the loop of [_fri_commit], run [iterations] times on the
    loop variables [layers] and [current_evals]. *)
Fixpoint fri_loop (iterations : nat) (challenge : string)
    (layers : list string) (current_evals : list Z) : list string :=
  match iterations with
  | O => layers
  | S iterations' =>
      let layer_str := json_array (map (fun e => json_string (str_int e)) (firstn 5 current_evals)) in
      let layer_hash := hashlib.sha256_hexdigest (layer_str +:+ challenge) in
      fri_loop iterations' challenge (layers ++ [layer_hash])
        (if (1 <? length current_evals)%nat then stride2 current_evals else current_evals)
  end.

Definition _fri_commit (self : STARKProver) (evaluations : list Z) (challenge : string)
    : list string :=
  fri_loop 3 challenge [] evaluations.

(** [now] is the reading of [time.time()]. *)
Definition generate_proof (self : STARKProver) (computation_result : Z) (trace : ProofTrace)
    (now : pyfloat) : gmap string value * STARKProver :=
  let trace_commitment := _commit_to_trace self trace in
  let constraint_evals := _evaluate_constraints self trace in
  let challenge := _generate_challenge self trace_commitment in
  let fri_layers := _fri_commit self constraint_evals challenge in
  let proof : gmap string value :=
    <["security_bits" := VInt (Z.of_N (security_level self))]>
    (<["timestamp" := VFloat now]>
    (<["fri_layers" := VList (map VStr fri_layers)]>
    (<["challenge" := VStr challenge]>
    (<["constraint_evaluations" := VList (map VInt (firstn 10 constraint_evals))]>
    (<["trace_commitment" := VStr trace_commitment]>
    (<["result" := VInt computation_result]>
    (<["computation" := VStr "fibonacci"]>
    (<["version" := VStr "1.0"]> ∅)))))))) in
  (proof, Prover (security_level self) proof).

Definition get_proof (self : STARKProver) : gmap string value := proof_data self.

End prover.

(** ** verifier.py *)

Module verifier.
Import py.

Record VerificationResult := Result {
  valid : bool;
  message : string;
  checks_passed : list string;
  checks_failed : list string
}.

Record STARKVerifier := Verifier {
  security_level : N;
  verification_log : list VerificationResult
}.

(** [STARKVerifier(security_level)] *)
Definition init (security_level : N) : STARKVerifier := Verifier security_level [].

Definition required_fields : list string :=
  ["version"; "computation"; "result"; "trace_commitment";
   "constraint_evaluations"; "challenge"; "fri_layers"; "security_bits"].

Definition is_list (v : value) : bool :=
  match v with
  | VList _ => true
  | _ => false
  end.

(** The type tests read [proof[...]] only after the loop has found every
    required field, so the lookups cannot raise. *)
Definition _check_proof_structure (self : STARKVerifier) (proof : gmap string value) : bool :=
  if negb (forallb (fun field => bool_decide (is_Some (proof !! field))) required_fields)
  then false
  else if negb (is_list (get proof "constraint_evaluations" VNone)) then false
  else if negb (is_list (get proof "fri_layers" VNone)) then false
  else true.

Definition hex_alphabet : string := "0123456789abcdef".

Definition _verify_trace_commitment (self : STARKVerifier) (proof : gmap string value)
    : outcome bool :=
  let commitment := get proof "trace_commitment" (VStr EmptyString) in
  n ← py_len commitment;
  if n =? 64 then
    items ← py_iter commitment;
    all_hex ← py_all (fun c => in_str c hex_alphabet) items;
    if (all_hex : bool) then Return true else Return false
  else Return false.

(** The test of the first loop of [_verify_constraints]:
    [not isinstance(eval_val, int) or eval_val < 0]. *)
Definition not_natural (eval_val : value) : outcome bool :=
  match as_int eval_val with
  | None => Return true
  | Some z => Return (z <? 0)
  end.

Definition _verify_constraints (self : STARKVerifier) (proof : gmap string value)
    : outcome bool :=
  let evaluations := get proof "constraint_evaluations" (VList []) in
  if negb (truthy evaluations) then Return false
  else
    items ← py_iter evaluations;
    bad ← first_hit not_natural items;
    if (bad : bool) then Return false
    else
      above ← first_hit (fun eval_val =>
                           py_ge_int eval_val (2 ^ Z.of_N (security_level self))) items;
      if (above : bool) then Return false else Return true.

(** The two tests of the loop of [_verify_fri_layers]:
    [not isinstance(layer, str)], then
    [len(layer) != 64 or not all(c in '0123456789abcdef' for c in layer)]. *)
Definition malformed_layer (layer : value) : outcome bool :=
  match layer with
  | VStr s =>
      if negb (Z.of_nat (String.length s) =? 64) then Return true
      else
        all_hex ← py_all (fun c => in_str c hex_alphabet) (map VStr (chars s));
        Return (negb all_hex : bool)
  | _ => Return true
  end.

Definition _verify_fri_layers (self : STARKVerifier) (proof : gmap string value)
    : outcome bool :=
  let fri_layers := get proof "fri_layers" (VList []) in
  if negb (truthy fri_layers) then Return false
  else
    n ← py_len fri_layers;
    if n <? 1 then Return false
    else
      items ← py_iter fri_layers;
      bad ← first_hit malformed_layer items;
      if (bad : bool) then Return false else Return true.

Definition _verify_challenge `{PyRepr} (self : STARKVerifier) (proof : gmap string value)
    : outcome bool :=
  let challenge := get proof "challenge" (VStr EmptyString) in
  let trace_commitment := get proof "trace_commitment" (VStr EmptyString) in
  let security_bits := get proof "security_bits" (VInt 0) in
  challenge_input ← py_add_str trace_commitment (py_str security_bits);
  let expected_challenge := str_take 16 (hashlib.sha256_hexdigest challenge_input) in
  Return (py_eq_str challenge expected_challenge).

(** The sixth check is written inline in [verify]: the comparison, then
    the description that reads [proof['security_bits']]. *)
Definition security_level_check `{PyRepr} (self : STARKVerifier) (proof : gmap string value)
    : outcome (bool * string) :=
  adequate ← py_ge_int (get proof "security_bits" (VInt 0)) (Z.of_N (security_level self));
  bits ← getitem proof "security_bits";
  if (adequate : bool)
  then Return (true, "Security level adequate (" +:+ py_str bits +:+ " bits)")
  else Return (false, "Insufficient security level (" +:+ py_str bits +:+ " bits)").

(** The two lists the body of [verify] appends to. *)
Record Checks := MkChecks {
  passed : list string;
  failed : list string
}.

(** Statements of the [try] block: they update the two lists and may raise;
    the lists keep what was appended before the raise. *)
Definition block (A : Type) : Type := Checks -> Checks * outcome A.

#[global] Instance block_ret : MRet block := fun A a cs => (cs, Return a).

#[global] Instance block_bind : MBind block := fun A B f m cs =>
  match m cs with
  | (cs', Return a) => f a cs'
  | (cs', Raise e) => (cs', Raise e)
  end.

Definition call {A} (m : outcome A) : block A := fun cs => (cs, m).

Definition pass (description : string) : block unit := fun cs =>
  (MkChecks (passed cs ++ [description]) (failed cs), Return tt).

Definition fail (description : string) : block unit := fun cs =>
  (MkChecks (passed cs) (failed cs ++ [description]), Return tt).

Definition current : block Checks := fun cs => (cs, Return cs).

(** [if check: checks_passed.append(ok) else: checks_failed.append(ko)] *)
Definition record (check : outcome bool) (ok ko : string) : block unit :=
  b ← call check;
  if (b : bool) then pass ok else fail ko.

(** The body of the [try] block.  It returns the result together with the
    verification log as the body leaves it. *)
Definition verify_body `{PyRepr} (self : STARKVerifier) (proof : gmap string value)
    : block (VerificationResult * list VerificationResult) :=
  if _check_proof_structure self proof then
    _ ← pass "Proof structure is valid";
    _ ← record (_verify_trace_commitment self proof)
          "Trace commitment verified" "Trace commitment verification failed";
    _ ← record (_verify_constraints self proof)
          "Constraint evaluations verified" "Constraint evaluation verification failed";
    _ ← record (_verify_fri_layers self proof)
          "FRI proof layers verified" "FRI proof layer verification failed";
    _ ← record (_verify_challenge self proof)
          "Challenge generation verified" "Challenge verification failed";
    '(adequate, description) ← call (security_level_check self proof);
    _ ← (if (adequate : bool) then pass description else fail description);
    cs ← current;
    let is_valid := (length (failed cs) =? 0)%nat in
    let message := if is_valid then "Proof is VALID" else "Proof is INVALID" in
    let verification_result := Result is_valid message (passed cs) (failed cs) in
    mret (verification_result, verification_log self ++ [verification_result])
  else
    _ ← fail "Invalid proof structure";
    cs ← current;
    mret (Result false "Proof structure validation failed" (passed cs) (failed cs),
          verification_log self).

Definition verify `{PyRepr} (self : STARKVerifier) (proof : gmap string value)
    : VerificationResult * STARKVerifier :=
  match verify_body self proof (MkChecks [] []) with
  | (_, Return (verification_result, log)) =>
      (verification_result, Verifier (security_level self) log)
  | (cs, Raise e) =>
      (Result false ("Verification error: " +:+ str_exn e) (passed cs)
              (("Exception: " +:+ str_exn e) :: failed cs),
       self)
  end.

Definition get_verification_log (self : STARKVerifier) : list VerificationResult :=
  verification_log self.

End verifier.

(** ** The layered folding committer as the design document words it *)

Module design.
Import py.

(** "the current list's first 5 entries (or all of them if fewer than 5)" *)
Definition first_five (l : list Z) : list Z :=
  if (length l <? 5)%nat then l else firstn 5 l.

(** "canonically serialize as a sequence of decimal-string integers" *)
Definition canonical (l : list Z) : string :=
  json_array (map (fun e => json_string (str_int e)) l).

(** "concatenate with challenge, hash to a 64-hex digest" *)
Definition layer_commitment (l : list Z) (challenge : string) : string :=
  hashlib.sha256_hexdigest (canonical (first_five l) +:+ challenge).

(** "keeping every second element starting at index 0 (stride 2)" *)
Definition every_second (l : list Z) : list Z :=
  map snd (List.filter (fun p => Nat.even (fst p)) (combine (seq 0 (length l)) l)).

(** "if the current list has exactly one element, folding is a no-op" *)
Definition fold_list (l : list Z) : list Z :=
  if (length l =? 1)%nat then l else every_second l.

(** "Runs exactly 3 iterations" *)
Definition layered_folding (evaluations : list Z) (challenge : string) : list string :=
  let l0 := evaluations in
  let l1 := fold_list l0 in
  let l2 := fold_list l1 in
  [layer_commitment l0 challenge; layer_commitment l1 challenge; layer_commitment l2 challenge].

(** A string of exactly 64 characters, all from [0-9a-f]. *)
Definition hex64 (s : string) : Prop :=
  String.length s = 64%nat /\
  Forall (fun c => str_contains c "0123456789abcdef" = true) (chars s).

(** The sequence of (operation, input, output, depth) of a trace. *)
Definition quadruples (t : prover.ProofTrace)
    : list (prover.Operation * Z * Z * Z) :=
  map (fun s => (prover.operation s, prover.input s, prover.output s, prover.depth s))
      (prover.steps t).

(** What the body records for a check that returned [b]. *)
Definition entry (b : bool) (ok ko : string) : bool * string := (b, if b then ok else ko).

Definition descriptions (entries : list (bool * string)) (kind : bool) : list string :=
  map snd (List.filter (fun e => Bool.eqb (fst e) kind) entries).

(** What [verify] reads of a proof, gathered for an assembled proof of a
    trace that has at least one step. *)
Definition well_shaped (self : verifier.STARKVerifier) (proof : gmap string value) (bits : Z) : Prop :=
  exists commitment evs layers,
    (forall field, field ∈ verifier.required_fields -> is_Some (proof !! field)) /\
    proof !! "trace_commitment" = Some (VStr commitment) /\
    hex64 commitment /\
    proof !! "constraint_evaluations" = Some (VList (map VInt evs)) /\
    evs <> [] /\
    Forall (fun e => 0 <= e < 2 ^ Z.of_N (verifier.security_level self)) evs /\
    proof !! "fri_layers" = Some (VList (map VStr layers)) /\
    layers <> [] /\
    Forall hex64 layers /\
    proof !! "challenge" =
      Some (VStr (str_take 16 (hashlib.sha256_hexdigest (commitment +:+ str_int bits)))) /\
    proof !! "security_bits" = Some (VInt bits) /\
    Z.of_N (verifier.security_level self) <= bits.

(** A stand-in for the interpreter's [repr], used to run the examples;
    none of them prints a float or a container. *)
Definition repr_sample : PyRepr := fun v => "<" +:+ type_name v +:+ ">".

(** The sample proof at the end of [verifier.py], with its digests (of the
    text test, of test128 and of the three layer labels) written out. *)
Definition sample_proof : gmap string value :=
  <["security_bits" := VInt 128]>
  (<["timestamp" := VInt 1234567890]>
  (<["fri_layers" :=
       VList [VStr "77ea7eee3d80b1a38f83906dd3048e2689457eb90e18a7d12f839c5ae37106a2";
              VStr "95cf1a2e1698fe3ca1fcc3f653119146b271d0b62e487ec264441e886a11bd06";
              VStr "a0e70458d19e37e14d6388030a017c587283e2fb6ef10c0744cad0294c47e8f8"]]>
  (<["challenge" := VStr "3b47320028a4f635"]>
  (<["constraint_evaluations" := VList [VInt 1; VInt 2; VInt 3; VInt 4; VInt 5]]>
  (<["trace_commitment" :=
       VStr "9f86d081884c7d659a2feaa0c55ad015a3bf4f1b2b0b822cd15d6c15b0f00a08"]>
  (<["result" := VInt 55]>
  (<["computation" := VStr "fibonacci"]>
  (<["version" := VStr "1.0"]> ∅)))))))).

(** The sample with the challenge that belongs to its commitment. *)
Definition forged_proof : gmap string value :=
  <["challenge" := VStr "185d34d8c3457e33"]> sample_proof.

(** The sample without its layers. *)
Definition sample_without_layers : gmap string value := delete "fri_layers" sample_proof.

(** The sample with a commitment that is no digest, no layer, a wrong
    challenge and too few security bits. *)
Definition sample_with_four_faults : gmap string value :=
  <["security_bits" := VInt 64]>
  (<["challenge" := VStr "0000000000000000"]>
  (<["fri_layers" := VList []]>
  (<["trace_commitment" := VStr "not a digest"]> sample_proof))).

End design.

(** ** What the trace builder computes, in closed form *)

Module closed_form.
Import py design.

(** The Fibonacci numbers. *)
Fixpoint fib (n : nat) : Z :=
  match n with
  | O => 0
  | S n' =>
      match n' with
      | O => 1
      | S n'' => fib n' + fib n''
      end
  end.

(** The steps that a call for [k] at depth [d] appends when the memo is
    still empty: the call for [k - 1] one level down, then for [k - 2] a
    memo hit (a fresh computation when [k = 2]), then the step for [k]. *)
Fixpoint chain (k : nat) (d : Z) : list (prover.Operation * Z * Z * Z) :=
  match k with
  | O => [(prover.fib_compute, 0, 0, d)]
  | S k' =>
      match k' with
      | O => [(prover.fib_compute, 1, 1, d)]
      | S k'' =>
          chain k' (d + 1) ++
          [(match k'' with
            | O => prover.fib_compute
            | S _ => prover.memo_lookup
            end, Z.of_nat k'', fib k'', d + 1);
           (prover.fib_compute, Z.of_nat k, fib k, d)]
      end
  end.

(** The step records of a sequence of steps appended from index [start] on. *)
Fixpoint numbered (start : nat) (qs : list (prover.Operation * Z * Z * Z))
    : list prover.StepRecord :=
  match qs with
  | [] => []
  | (op, i, o, d) :: rest => prover.Step (Z.of_nat start) op i o d :: numbered (S start) rest
  end.

(** A step one level deeper. *)
Definition deeper (q : prover.Operation * Z * Z * Z) : prover.Operation * Z * Z * Z :=
  let '(op, i, o, d) := q in (op, i, o, d + 1).

(** A step that was answered from the memo. *)
Definition is_hit (q : prover.Operation * Z * Z * Z) : bool :=
  match q with
  | (prover.memo_lookup, _, _, _) => true
  | _ => false
  end.

End closed_form.

(** ** What the verifier accepts, in terms of the proof's content *)

Module acceptance.
Import py design.

(** The messages of a run that went through all six checks. *)
Definition completed (message : string) : bool :=
  String.eqb message "Proof is VALID" || String.eqb message "Proof is INVALID".

(** The content of a proof that [verify] accepts: all required fields, a
    commitment and layers that look like digests, evaluations that are
    integers (or booleans) in range, a number of security bits that is
    adequate, and the challenge derived from commitment and bits. *)
Definition accepted_shape `{PyRepr} (self : verifier.STARKVerifier)
    (proof : gmap string value) : Prop :=
  exists commitment items layers bits,
    (forall field, field ∈ verifier.required_fields -> is_Some (proof !! field)) /\
    proof !! "trace_commitment" = Some (VStr commitment) /\
    hex64 commitment /\
    proof !! "constraint_evaluations" = Some (VList items) /\
    items <> [] /\
    Forall (fun v => exists z, as_int v = Some z /\
                               0 <= z < 2 ^ Z.of_N (verifier.security_level self)) items /\
    proof !! "fri_layers" = Some (VList (map VStr layers)) /\
    layers <> [] /\
    Forall hex64 layers /\
    proof !! "security_bits" = Some bits /\
    py_ge_int bits (Z.of_N (verifier.security_level self)) = Return true /\
    proof !! "challenge" =
      Some (VStr (str_take 16 (hashlib.sha256_hexdigest (commitment +:+ py_str bits)))).

(** A value without a length. *)
Definition unsized (v : value) : bool :=
  match v with
  | VNone | VBool _ | VInt _ | VFloat _ => true
  | VStr _ | VList _ | VDict _ => false
  end.

(** A value that cannot be compared with an integer. *)
Definition unordered (v : value) : bool :=
  match v with
  | VNone | VStr _ | VList _ | VDict _ => true
  | VBool _ | VInt _ | VFloat _ => false
  end.

End acceptance.

(** ** More sample proofs *)

Module samples.
Import py design.

(** The forged sample with an integer where the commitment should be. *)
Definition integer_commitment : gmap string value :=
  <["trace_commitment" := VInt 7]> forged_proof.

(** The forged sample with its security bits as text. *)
Definition textual_bits : gmap string value :=
  <["security_bits" := VStr "128"]> forged_proof.

(** The forged sample with other values for the fields that are not read,
    without a timestamp and with a field of its own. *)
Definition relabelled : gmap string value :=
  <["note" := VStr "anything"]>
  (<["version" := VNone]>
  (<["computation" := VStr "factorial"]>
  (<["result" := VInt (-1)]>
  (delete "timestamp" forged_proof)))).

(** A trace of one step with output 5. *)
Definition one_step : prover.ProofTrace :=
  prover.Trace [prover.Step 0 prover.fib_compute 5 5 0] 5 5.

End samples.

(** ** The characters of a serialized integer *)

Module text.
Import py design.

(** A digit or the minus sign. *)
Definition numeric (c : ascii) : bool :=
  let n := nat_of_ascii c in
  ((48 <=? n) && (n <=? 57))%nat || (n =? 45)%nat.

Fixpoint all_numeric (s : string) : bool :=
  match s with
  | EmptyString => true
  | String c s' => numeric c && all_numeric s'
  end.

(** Whether a text starts with a character that is not numeric. *)
Definition delimited (s : string) : bool :=
  match s with
  | EmptyString => false
  | String c _ => negb (numeric c)
  end.

(** Two traces that differ in the depth of one step only. *)
Definition shallow_trace : prover.ProofTrace :=
  prover.Trace [prover.Step 0 prover.fib_compute 1 1 0] 1 1.

Definition deep_trace : prover.ProofTrace :=
  prover.Trace [prover.Step 0 prover.fib_compute 1 1 7] 1 1.

End text.

(** * Properties *)

Import py design.

(** ** Digests *)

Section Digests.

Example sha256_empty :
  hashlib.sha256_hexdigest "" =
  "e3b0c44298fc1c149afbf4c8996fb92427ae41e4649b934ca495991b7852b855".
Proof. vm_compute. reflexivity. Qed.

Example sha256_abc :
  hashlib.sha256_hexdigest "abc" =
  "ba7816bf8f01cfea414140de5dae2223b00361a396177a9cb410ff61f20015ad".
Proof. vm_compute. reflexivity. Qed.

(** A message that needs two blocks. *)
Example sha256_two_blocks :
  hashlib.sha256_hexdigest "abcdbcdecdefdefgefghfghighijhijkijkljklmklmnlmnomnopnopq" =
  "248d6a61d20638b8e5c026930c3e6039a33ce45964ff2167f6ecedd419db06c1".
Proof. vm_compute. reflexivity. Qed.

Lemma nibble_is_hex (x : Z) :
  str_contains (String (hashlib.nibble x) EmptyString) "0123456789abcdef" = true.
Proof.
  unfold hashlib.nibble.
  generalize (Z.to_nat (x mod 16)); intros n.
  do 16 (destruct n as [|n]; [vm_compute; reflexivity|]).
  destruct n; vm_compute; reflexivity.
Qed.

Lemma chars_hex8 (w : Z) (tail : string) :
  chars (hashlib.hex8 w tail) =
  map (fun k => String (hashlib.nibble (w / 2 ^ k)) EmptyString) [28; 24; 20; 16; 12; 8; 4; 0]
  ++ chars tail.
Proof.
  unfold hashlib.hex8, chars. cbn [list_ascii_of_string map app].
  rewrite Z.pow_0_r, Z.div_1_r. reflexivity.
Qed.

Lemma hexdigest_hex64 (s : string) : design.hex64 (hashlib.sha256_hexdigest s).
Proof.
  unfold hashlib.sha256_hexdigest, hashlib.hex_of_state.
  generalize (hashlib.digest (hashlib.encode s)); intros st.
  split; [reflexivity|].
  rewrite !chars_hex8. cbn [map app chars list_ascii_of_string].
  repeat (constructor; [apply nibble_is_hex|]). constructor.
Qed.

Lemma hexdigest_length (s : string) : String.length (hashlib.sha256_hexdigest s) = 64%nat.
Proof. apply hexdigest_hex64. Qed.

End Digests.

(** ** The trace builder *)

Section TraceBuilder.
Import prover.

(** More fuel never changes a result. *)
Lemma fib_with_trace_fuel_mono (fuel fuel' : nat) (num d : Z) (env : Env) (r : Z * Env) :
  (fuel <= fuel')%nat ->
  fib_with_trace fuel num d env = Some r ->
  fib_with_trace fuel' num d env = Some r.
Proof.
  revert fuel' num d env r.
  induction fuel as [|fuel IH]; intros fuel' num d env r Hle Hrun; [discriminate|].
  destruct fuel' as [|fuel']; [lia|].
  assert (Hle' : (fuel <= fuel')%nat) by lia.
  cbn [fib_with_trace] in *.
  destruct (memo env !! num); [exact Hrun|].
  destruct (num =? 0); [exact Hrun|].
  destruct (num =? 1); [exact Hrun|].
  destruct (fib_with_trace fuel (num - 1) (d + 1) env) as [[a env1]|] eqn:E1;
    [|discriminate].
  rewrite (IH _ _ _ _ _ Hle' E1). cbn in *.
  destruct (fib_with_trace fuel (num - 2) (d + 1) env1) as [[b env2]|] eqn:E2;
    [|discriminate].
  rewrite (IH _ _ _ _ _ Hle' E2). exact Hrun.
Qed.

(** The recursion for a non-negative [num] stays within [num + 1] frames. *)
Lemma fib_with_trace_terminates (fuel : nat) (num d : Z) (env : Env) :
  0 <= num -> (Z.to_nat num < fuel)%nat ->
  is_Some (fib_with_trace fuel num d env).
Proof.
  revert num d env.
  induction fuel as [|fuel IH]; intros num d env Hnum Hfuel; [lia|].
  cbn [fib_with_trace].
  destruct (memo env !! num); [eexists; reflexivity|].
  destruct (Z.eqb_spec num 0); [eexists; reflexivity|].
  destruct (Z.eqb_spec num 1); [eexists; reflexivity|].
  destruct (IH (num - 1) (d + 1) env) as [[a env1] E1]; [lia|lia|].
  rewrite E1. cbn.
  destruct (IH (num - 2) (d + 1) env1) as [[b env2] E2]; [lia|lia|].
  rewrite E2. cbn. eexists; reflexivity.
Qed.

(** Every completed call appends at least one step and removes none. *)
Lemma fib_with_trace_appends (fuel : nat) (num d : Z) (env env' : Env) (r : Z) :
  fib_with_trace fuel num d env = Some (r, env') ->
  exists new, trace_steps env' = trace_steps env ++ new /\ new <> [].
Proof.
  revert num d env env' r.
  induction fuel as [|fuel IH]; intros num d env env' r Hrun; [discriminate|].
  cbn [fib_with_trace] in Hrun.
  destruct (memo env !! num).
  { injection Hrun as <- <-. eexists; split; [reflexivity|discriminate]. }
  destruct (num =? 0).
  { injection Hrun as <- <-. eexists; split; [reflexivity|discriminate]. }
  destruct (num =? 1).
  { injection Hrun as <- <-. eexists; split; [reflexivity|discriminate]. }
  destruct (fib_with_trace fuel (num - 1) (d + 1) env) as [[a env1]|] eqn:E1;
    [|discriminate].
  cbn in Hrun.
  destruct (fib_with_trace fuel (num - 2) (d + 1) env1) as [[b env2]|] eqn:E2;
    [|discriminate].
  cbn in Hrun. injection Hrun as <- <-.
  destruct (IH _ _ _ _ _ E1) as [new1 [H1 _]].
  destruct (IH _ _ _ _ _ E2) as [new2 [H2 _]].
  exists (new1 ++ new2 ++ [Step (Z.of_nat (length (trace_steps env2))) fib_compute num (a + b) d]).
  split.
  - cbn. rewrite H2, H1, <- !app_assoc. reflexivity.
  - intros H. apply app_eq_nil in H as [_ H]. apply app_eq_nil in H as [_ H]. discriminate.
Qed.

(** For [n >= 0] the builder returns, with a trace that is not empty. *)
Lemma compute_fibonacci_returns (self : STARKProver) (n : Z) :
  0 <= n ->
  exists result trace,
    compute_fibonacci self n = Return (result, trace) /\ steps trace <> [].
Proof.
  intros Hn. unfold compute_fibonacci.
  destruct (Z.ltb_spec n 0); [lia|].
  destruct (fib_with_trace_terminates (depth_bound n) n 0 (MkEnv [] ∅)) as [[r env] E];
    [lia|unfold depth_bound; lia|].
  rewrite E. exists r, (Trace (trace_steps env) n r). split; [reflexivity|].
  destruct (fib_with_trace_appends _ _ _ _ _ _ E) as [new [Hnew Hne]].
  cbn in *. rewrite Hnew. exact Hne.
Qed.

(** The result does not depend on the recursion bound chosen in the model. *)
Lemma compute_fibonacci_any_fuel (self : STARKProver) (n : Z) (fuel : nat) :
  0 <= n -> (depth_bound n <= fuel)%nat ->
  exists result env,
    fib_with_trace fuel n 0 (MkEnv [] ∅) = Some (result, env) /\
    compute_fibonacci self n = Return (result, Trace (trace_steps env) n result).
Proof.
  intros Hn Hfuel. unfold compute_fibonacci.
  destruct (Z.ltb_spec n 0); [lia|].
  destruct (fib_with_trace_terminates (depth_bound n) n 0 (MkEnv [] ∅)) as [[r env] E];
    [lia|unfold depth_bound; lia|].
  exists r, env. rewrite E. split; [|reflexivity].
  eapply fib_with_trace_fuel_mono; eassumption.
Qed.

(** C3 as stated does not hold: the builder gives both recursive calls the
    depth of their caller plus one, so the steps for 0 and for the three
    memo hits are one level less deep than claimed. *)
Lemma claimed_depths_for_5_refuted :
  ~ (exists trace,
       compute_fibonacci (init 128) 5 = Return (5, trace) /\
       quadruples trace =
         [(fib_compute, 1, 1, 4); (fib_compute, 0, 0, 5); (fib_compute, 2, 1, 3);
          (memo_lookup, 1, 1, 4); (fib_compute, 3, 2, 2); (memo_lookup, 2, 1, 3);
          (fib_compute, 4, 3, 1); (memo_lookup, 3, 2, 2); (fib_compute, 5, 5, 0)] /\
       map step (steps trace) = [0; 1; 2; 3; 4; 5; 6; 7; 8]).
Proof.
  intros [trace [Hrun [Hquad _]]].
  vm_compute in Hrun. injection Hrun as <-.
  vm_compute in Hquad. discriminate.
Qed.

(** C3, amended: for [n = 5] the builder returns 5 and nine steps with the
    depths 4, 4, 3, 3, 2, 2, 1, 1, 0 and the indices 0 to 8. *)
Theorem compute_fibonacci_5_trace (self : STARKProver) :
  exists trace,
    compute_fibonacci self 5 = Return (5, trace) /\
    length (steps trace) = 9%nat /\
    quadruples trace =
      [(fib_compute, 1, 1, 4); (fib_compute, 0, 0, 4); (fib_compute, 2, 1, 3);
       (memo_lookup, 1, 1, 3); (fib_compute, 3, 2, 2); (memo_lookup, 2, 1, 2);
       (fib_compute, 4, 3, 1); (memo_lookup, 3, 2, 1); (fib_compute, 5, 5, 0)] /\
    map step (steps trace) = [0; 1; 2; 3; 4; 5; 6; 7; 8].
Proof.
  eexists. split; [vm_compute; reflexivity|].
  split; [reflexivity|]. split; reflexivity.
Qed.

End TraceBuilder.

(** ** Constraint evaluation and the layered folding committer *)

Section Committer.
Import prover.

Lemma evaluate_constraints_fold (modulus : Z) (l : list StepRecord) (acc : list Z) :
  fold_left (fun evaluations s => evaluations ++ [output s mod modulus]) l acc =
  acc ++ map (fun s => output s mod modulus) l.
Proof.
  revert acc. induction l as [|s l IH]; intros acc; cbn.
  - rewrite app_nil_r. reflexivity.
  - rewrite IH, <- app_assoc. reflexivity.
Qed.

Lemma evaluate_constraints_map (self : STARKProver) (trace : ProofTrace) :
  _evaluate_constraints self trace =
  map (fun s => output s mod 2 ^ Z.of_N (security_level self)) (steps trace).
Proof. unfold _evaluate_constraints. apply evaluate_constraints_fold. Qed.

Lemma evaluate_constraints_range (self : STARKProver) (trace : ProofTrace) :
  Forall (fun e => 0 <= e < 2 ^ Z.of_N (security_level self))
         (_evaluate_constraints self trace).
Proof.
  rewrite evaluate_constraints_map. apply Forall_map, Forall_true. intros s.
  apply Z.mod_pos_bound. apply Z.pow_pos_nonneg; lia.
Qed.

Lemma generate_proof_constraint_evaluations self computation_result trace now :
  fst (generate_proof self computation_result trace now) !! "constraint_evaluations" =
  Some (VList (map VInt (firstn 10 (_evaluate_constraints self trace)))).
Proof. unfold generate_proof. cbn [fst]. by simplify_map_eq. Qed.

(** C8: the evaluation list has one entry per step, the k-th being the
    k-th step's output modulo 2^security_level, and the proof stores the
    first ten entries of that list (all of them when there are fewer). *)
Theorem constraint_evaluations_prefix (self : STARKProver) (computation_result : Z)
    (trace : ProofTrace) (now : pyfloat) :
  let evaluations := _evaluate_constraints self trace in
  length evaluations = length (steps trace) /\
  evaluations = map (fun s => output s mod 2 ^ Z.of_N (security_level self)) (steps trace) /\
  fst (generate_proof self computation_result trace now) !! "constraint_evaluations" =
    Some (VList (map VInt (firstn 10 evaluations))) /\
  length (firstn 10 evaluations) = Nat.min 10 (length (steps trace)).
Proof.
  cbn zeta. rewrite length_firstn. rewrite evaluate_constraints_map at 1 2 4.
  rewrite length_map.
  split; [reflexivity|]. split; [reflexivity|].
  split; [apply generate_proof_constraint_evaluations|reflexivity].
Qed.

Lemma stride2_even_positions (l : list Z) :
  forall k, Nat.even k = true ->
    (map snd (List.filter (fun p => Nat.even (fst p)) (combine (seq k (length l)) l))
       = stride2 l) /\
    (forall x,
       map snd (List.filter (fun p => Nat.even (fst p))
                            (combine (seq k (length (x :: l))) (x :: l)))
       = stride2 (x :: l)).
Proof.
  induction l as [|a l IH]; intros k Hk.
  - split; [reflexivity|]. intros x. cbn. rewrite Hk. reflexivity.
  - split; [apply (IH k Hk)|].
    intros x. cbn [length seq combine List.filter fst].
    rewrite Hk. replace (Nat.even (S k)) with false
      by (rewrite Nat.even_succ, <- Nat.negb_even, Hk; reflexivity).
    cbn [map snd stride2]. f_equal.
    apply (IH (S (S k))). exact Hk.
Qed.

Lemma stride2_every_second (l : list Z) : stride2 l = design.every_second l.
Proof. symmetry. apply (stride2_even_positions l 0). reflexivity. Qed.

(** The element at position [i] of [l[::2]] is the one at position [2 i]. *)
Lemma stride2_lookup (l : list Z) (i : nat) : stride2 l !! i = l !! (2 * i)%nat.
Proof.
  revert i.
  enough (H : (forall i, stride2 l !! i = l !! (2 * i)%nat) /\
              (forall x i, stride2 (x :: l) !! i = (x :: l) !! (2 * i)%nat))
    by apply H.
  induction l as [|y l [IH1 IH2]].
  - split; [intros []; reflexivity|intros x [|[|i]]; reflexivity].
  - split; [apply IH2|]. intros x [|i]; [reflexivity|].
    replace (2 * S i)%nat with (S (S (2 * i))) by lia.
    cbn [stride2 lookup list_lookup]. apply IH1.
Qed.

Lemma fold_step (l : list Z) :
  (if (1 <? length l)%nat then stride2 l else l) = design.fold_list l.
Proof.
  unfold design.fold_list. rewrite <- stride2_every_second.
  destruct l as [|x [|y l]]; reflexivity.
Qed.

Lemma first_five_firstn (l : list Z) : design.first_five l = firstn 5 l.
Proof.
  unfold design.first_five. destruct (Nat.ltb_spec (length l) 5); [|reflexivity].
  symmetry. apply firstn_all2. lia.
Qed.

(** C4: the three layers are the digests of the serialized first five
    entries of the current list followed by the challenge, and between
    layers the whole current list is folded with stride 2, a list of one
    element being left as it is. *)
Theorem fri_commit_layers (self : STARKProver) (evaluations : list Z) (challenge : string) :
  _fri_commit self evaluations challenge = design.layered_folding evaluations challenge.
Proof.
  unfold _fri_commit, design.layered_folding, design.layer_commitment, design.canonical.
  cbn [fri_loop app]. rewrite !fold_step, !first_five_firstn. reflexivity.
Qed.

Lemma fri_commit_digests (self : STARKProver) (evaluations : list Z) (challenge : string) :
  Forall design.hex64 (_fri_commit self evaluations challenge).
Proof.
  unfold _fri_commit. cbn [fri_loop app].
  repeat (constructor; [apply hexdigest_hex64|]). constructor.
Qed.

(** C5: whatever the evaluation list, the committer returns three layers,
    each a digest of 64 hex characters; the model is a total function, so
    no input makes it raise. *)
Theorem fri_commit_three_layers (self : STARKProver) (evaluations : list Z)
    (challenge : string) :
  length (_fri_commit self evaluations challenge) = 3%nat /\
  Forall design.hex64 (_fri_commit self evaluations challenge) /\
  length (_fri_commit self [] challenge) = 3%nat /\
  (forall e, length (_fri_commit self [e] challenge) = 3%nat).
Proof.
  split; [reflexivity|]. split; [apply fri_commit_digests|].
  split; [reflexivity|intros e; reflexivity].
Qed.

End Committer.

(** ** The verifier's checks *)

Section Checks.
Import verifier.
Context `{PyRepr}.

Lemma py_all_hex (cs : list string) :
  Forall (fun c => str_contains c "0123456789abcdef" = true) cs ->
  py_all (fun c => in_str c hex_alphabet) (map VStr cs) = Return true.
Proof.
  induction 1 as [|c cs Hc _ IH]; [reflexivity|].
  cbn [map py_all in_str]. unfold hex_alphabet. rewrite Hc. exact IH.
Qed.

Lemma get_found (proof : gmap string value) (key : string) (dflt v : value) :
  proof !! key = Some v -> get proof key dflt = v.
Proof. intros Hget. unfold get. rewrite Hget. reflexivity. Qed.

Lemma verify_trace_commitment_hex64 (self : STARKVerifier) (proof : gmap string value)
    (commitment : string) :
  proof !! "trace_commitment" = Some (VStr commitment) ->
  design.hex64 commitment ->
  _verify_trace_commitment self proof = Return true.
Proof.
  intros Hget [Hlen Hhex]. unfold _verify_trace_commitment.
  rewrite (get_found _ _ _ _ Hget). cbn [py_len py_iter]. rewrite Hlen.
  unfold mbind, outcome_bind. cbn [Z.of_nat Z.eqb Pos.of_succ_nat Pos.eqb Pos.succ].
  rewrite (py_all_hex _ Hhex). reflexivity.
Qed.

Lemma first_hit_layers (layers : list string) :
  Forall design.hex64 layers ->
  first_hit malformed_layer (map VStr layers) = Return false.
Proof.
  induction 1 as [|s layers [Hlen Hhex] _ IH]; [reflexivity|].
  cbn [map first_hit malformed_layer]. rewrite Hlen.
  cbn [Z.of_nat Z.eqb negb Pos.of_succ_nat].
  rewrite (py_all_hex _ Hhex). cbn. exact IH.
Qed.

Lemma verify_fri_layers_hex64 (self : STARKVerifier) (proof : gmap string value)
    (layers : list string) :
  proof !! "fri_layers" = Some (VList (map VStr layers)) ->
  layers <> [] ->
  Forall design.hex64 layers ->
  _verify_fri_layers self proof = Return true.
Proof.
  intros Hget Hne Hhex. unfold _verify_fri_layers. rewrite (get_found _ _ _ _ Hget).
  assert (Hlen : (0 < length (map VStr layers))%nat)
    by (destruct layers; [congruence|cbn; lia]).
  cbn [truthy py_len py_iter]. destruct (Nat.eqb_spec (length (map VStr layers)) 0); [lia|].
  unfold mbind, outcome_bind. cbn [negb].
  destruct (Z.ltb_spec (Z.of_nat (length (map VStr layers))) 1); [lia|].
  rewrite (first_hit_layers _ Hhex). reflexivity.
Qed.

Lemma first_hit_not_negative (evs : list Z) :
  Forall (fun e => 0 <= e) evs ->
  first_hit not_natural (map VInt evs) = Return false.
Proof.
  induction 1 as [|e evs He _ IH]; [reflexivity|].
  cbn [map first_hit not_natural as_int]. destruct (Z.ltb_spec e 0); [lia|]. exact IH.
Qed.

Lemma first_hit_above (bound : Z) (evs : list Z) :
  first_hit (fun eval_val => py_ge_int eval_val bound) (map VInt evs) =
  Return (negb (forallb (fun e => e <? bound) evs)).
Proof.
  induction evs as [|e evs IH]; [reflexivity|].
  cbn [map first_hit py_ge_int forallb].
  destruct (Z.leb_spec bound e), (Z.ltb_spec e bound); try lia; [reflexivity|exact IH].
Qed.

Lemma verify_constraints_ints (self : STARKVerifier) (proof : gmap string value)
    (evs : list Z) :
  proof !! "constraint_evaluations" = Some (VList (map VInt evs)) ->
  evs <> [] ->
  Forall (fun e => 0 <= e) evs ->
  _verify_constraints self proof =
  Return (forallb (fun e => e <? 2 ^ Z.of_N (security_level self)) evs).
Proof.
  intros Hget Hne Hpos. unfold _verify_constraints. rewrite (get_found _ _ _ _ Hget).
  assert (Hlen : (0 < length (map VInt evs))%nat)
    by (destruct evs; [congruence|cbn; lia]).
  cbn [truthy py_iter]. destruct (Nat.eqb_spec (length (map VInt evs)) 0); [lia|].
  unfold mbind, outcome_bind. cbn [negb].
  rewrite (first_hit_not_negative _ Hpos), first_hit_above.
  destruct (forallb _ _); reflexivity.
Qed.

Lemma verify_constraints_in_range (self : STARKVerifier)
    (proof : gmap string value) (evs : list Z) :
  proof !! "constraint_evaluations" = Some (VList (map VInt evs)) ->
  evs <> [] ->
  Forall (fun e => 0 <= e) evs ->
  Forall (fun e => e < 2 ^ Z.of_N (security_level self)) evs ->
  _verify_constraints self proof = Return true.
Proof.
  intros Hget Hne Hpos Hlt. rewrite (verify_constraints_ints _ _ _ Hget Hne Hpos). f_equal.
  apply forallb_forall. intros e He.
  apply Z.ltb_lt. rewrite Forall_forall in Hlt. apply Hlt, list_elem_of_In, He.
Qed.

(** C10: on a non-empty list of non-negative integers the third check
    returns whether every entry is below 2^L for the verifier's own level L;
    it passes when all are, and it never reads the proof's [security_bits]. *)
Theorem verify_constraints_uses_verifier_level (self : STARKVerifier)
    (proof : gmap string value) (evs : list Z) :
  proof !! "constraint_evaluations" = Some (VList (map VInt evs)) ->
  evs <> [] ->
  Forall (fun e => 0 <= e) evs ->
  _verify_constraints self proof =
    Return (forallb (fun e => e <? 2 ^ Z.of_N (security_level self)) evs) /\
  (Forall (fun e => e < 2 ^ Z.of_N (security_level self)) evs ->
   _verify_constraints self proof = Return true) /\
  (forall bits, _verify_constraints self (<["security_bits" := bits]> proof) =
                _verify_constraints self proof).
Proof.
  intros Hget Hne Hpos. split; [|split].
  - apply verify_constraints_ints; assumption.
  - apply verify_constraints_in_range; assumption.
  - intros bits. unfold _verify_constraints, get.
    rewrite lookup_insert_ne by done. reflexivity.
Qed.

(** Evaluations 5 and 7 exceed 2^2, the level the proof announces, and pass
    the check of a verifier configured for 128 bits. *)
Lemma verify_constraints_uses_verifier_level_witness :
  let proof : gmap string value :=
    <["security_bits" := VInt 2]> (<["constraint_evaluations" := VList [VInt 5; VInt 7]]> ∅) in
  _verify_constraints (init 128) proof = Return true /\ 2 ^ 2 <= 5.
Proof.
  cbn zeta. split; [|lia].
  apply (verify_constraints_uses_verifier_level (init 128) _ [5; 7]).
  - reflexivity.
  - discriminate.
  - repeat constructor; lia.
  - repeat constructor; reflexivity.
Defined.

End Checks.

(** ** The verification pipeline *)

Section Pipeline.
Import verifier.
Context `{PyRepr}.

Lemma check_proof_structure_missing (self : STARKVerifier) (proof : gmap string value)
    (field : string) :
  field ∈ required_fields -> proof !! field = None ->
  _check_proof_structure self proof = false.
Proof.
  intros Hin Hnone. unfold _check_proof_structure.
  destruct (forallb _ required_fields) eqn:Hall; [|reflexivity].
  rewrite forallb_forall in Hall.
  specialize (Hall field (proj1 (list_elem_of_In _ _) Hin)).
  rewrite Hnone in Hall. apply bool_decide_eq_true in Hall.
  destruct Hall as [v Hv]. discriminate.
Qed.

Lemma is_list_false (proof : gmap string value) (key : string) :
  (forall l, proof !! key <> Some (VList l)) ->
  is_list (get proof key VNone) = false.
Proof.
  intros Hno. unfold get.
  destruct (proof !! key) as [[| | | | |l|]|] eqn:E; try reflexivity.
  exfalso. apply (Hno l). reflexivity.
Qed.

Lemma verify_structure_failure (self : STARKVerifier) (proof : gmap string value) :
  _check_proof_structure self proof = false ->
  verify self proof =
  (Result false "Proof structure validation failed" [] ["Invalid proof structure"], self).
Proof.
  intros Hbad. unfold verify, verify_body. rewrite Hbad.
  destruct self; reflexivity.
Qed.

(** C6: when a required field is missing, or [constraint_evaluations] or
    [fri_layers] is not a list, [verify] returns at once: not valid, the
    message of the structural check, that check as the only failure, no
    entry from the later checks, and the log left as it was. *)
Theorem verify_rejects_malformed (self : STARKVerifier) (proof : gmap string value) :
  (exists field, field ∈ required_fields /\ proof !! field = None) \/
  (forall l, proof !! "constraint_evaluations" <> Some (VList l)) \/
  (forall l, proof !! "fri_layers" <> Some (VList l)) ->
  verify self proof =
  (Result false "Proof structure validation failed" [] ["Invalid proof structure"], self).
Proof.
  intros Hbad. apply verify_structure_failure.
  destruct Hbad as [[field [Hin Hnone]]|[Hce|Hfl]].
  - eapply check_proof_structure_missing; eassumption.
  - unfold _check_proof_structure. rewrite (is_list_false _ _ Hce).
    destruct (forallb _ _); reflexivity.
  - unfold _check_proof_structure. rewrite (is_list_false _ _ Hfl).
    destruct (forallb _ _); [destruct (is_list _)|]; reflexivity.
Qed.

(** C7: when the structural check passes and the body of [verify] raises
    nothing, each of the checks 2 to 6 has returned, each has put its one
    description on the passed or on the failed list, in order, whatever the
    earlier checks returned; the result is valid exactly when the failed list
    is empty, with the matching message, and it is appended to the log. *)
Theorem verify_runs_all_checks (self : STARKVerifier) (proof : gmap string value)
    (cs : Checks) (returned : VerificationResult * list VerificationResult) :
  _check_proof_structure self proof = true ->
  verify_body self proof (MkChecks [] []) = (cs, Return returned) ->
  exists b2 b3 b4 b5 b6 d6,
    _verify_trace_commitment self proof = Return b2 /\
    _verify_constraints self proof = Return b3 /\
    _verify_fri_layers self proof = Return b4 /\
    _verify_challenge self proof = Return b5 /\
    security_level_check self proof = Return (b6, d6) /\
    let entries :=
      [entry b2 "Trace commitment verified" "Trace commitment verification failed";
       entry b3 "Constraint evaluations verified" "Constraint evaluation verification failed";
       entry b4 "FRI proof layers verified" "FRI proof layer verification failed";
       entry b5 "Challenge generation verified" "Challenge verification failed";
       (b6, d6)] in
    let result := fst (verify self proof) in
    checks_passed result = "Proof structure is valid" :: descriptions entries true /\
    checks_failed result = descriptions entries false /\
    (length (descriptions entries true) + length (descriptions entries false) = 5)%nat /\
    (valid result = true <-> checks_failed result = []) /\
    message result = (if valid result then "Proof is VALID" else "Proof is INVALID") /\
    snd (verify self proof) =
      Verifier (security_level self) (verification_log self ++ [result]).
Proof.
  intros Hstruct Hbody. unfold verify. unfold verify_body in *.
  rewrite Hstruct in *.
  unfold mbind, block_bind, record, call, mret, block_ret in *. cbn [pass] in *.
  destruct (_verify_trace_commitment self proof) as [b2|e]; [|discriminate].
  destruct (_verify_constraints self proof) as [b3|e];
    [|destruct b2; discriminate].
  destruct (_verify_fri_layers self proof) as [b4|e];
    [|destruct b2, b3; discriminate].
  destruct (_verify_challenge self proof) as [b5|e];
    [|destruct b2, b3, b4; discriminate].
  destruct (security_level_check self proof) as [[b6 d6]|e];
    [|destruct b2, b3, b4, b5; discriminate].
  exists b2, b3, b4, b5, b6, d6.
  repeat (split; [reflexivity|]).
  clear Hbody Hstruct.
  destruct b2, b3, b4, b5, b6; cbn;
    repeat (split; try reflexivity; try discriminate; try (intros; congruence)).
Qed.

End Pipeline.

(** ** Prover and verifier together *)

Section EndToEnd.
Import verifier.
Context `{PyRepr}.

(** The fields of an assembled proof. *)
Lemma generate_proof_fields (self : prover.STARKProver) (computation_result : Z)
    (trace : prover.ProofTrace) (now : pyfloat) :
  let proof := fst (prover.generate_proof self computation_result trace now) in
  let commitment := prover._commit_to_trace self trace in
  let challenge := prover._generate_challenge self commitment in
  proof !! "version" = Some (VStr "1.0") /\
  proof !! "computation" = Some (VStr "fibonacci") /\
  proof !! "result" = Some (VInt computation_result) /\
  proof !! "trace_commitment" = Some (VStr commitment) /\
  proof !! "constraint_evaluations" =
    Some (VList (map VInt (firstn 10 (prover._evaluate_constraints self trace)))) /\
  proof !! "challenge" = Some (VStr challenge) /\
  proof !! "fri_layers" =
    Some (VList (map VStr (prover._fri_commit self
                             (prover._evaluate_constraints self trace) challenge))) /\
  proof !! "timestamp" = Some (VFloat now) /\
  proof !! "security_bits" = Some (VInt (Z.of_N (prover.security_level self))).
Proof.
  cbn zeta. unfold prover.generate_proof. cbn [fst].
  repeat split; by simplify_map_eq.
Qed.

Lemma verify_challenge_recomputed (self : STARKVerifier) (proof : gmap string value)
    (commitment : string) (bits : Z) :
  proof !! "trace_commitment" = Some (VStr commitment) ->
  proof !! "security_bits" = Some (VInt bits) ->
  proof !! "challenge" =
    Some (VStr (str_take 16 (hashlib.sha256_hexdigest (commitment +:+ str_int bits)))) ->
  _verify_challenge self proof = Return true.
Proof.
  intros Hc Hb Hch. unfold _verify_challenge.
  rewrite (get_found _ _ _ _ Hc), (get_found _ _ _ _ Hb), (get_found _ _ _ _ Hch).
  unfold py_add_str, py_str, py_eq_str, mbind, outcome_bind.
  rewrite String.eqb_refl. reflexivity.
Qed.

(** C2: the challenge stored by [generate_proof] is the first 16 hex
    characters of the digest of the commitment followed by the decimal
    security level, which is what the verifier recomputes: check 5 passes,
    for a verifier of any level and so for one of the prover's level. *)
Theorem challenge_round_trip (p : prover.STARKProver) (self : STARKVerifier)
    (computation_result : Z) (trace : prover.ProofTrace) (now : pyfloat) :
  let proof := fst (prover.generate_proof p computation_result trace now) in
  exists commitment bits,
    proof !! "trace_commitment" = Some (VStr commitment) /\
    proof !! "security_bits" = Some (VInt bits) /\
    proof !! "challenge" =
      Some (VStr (str_take 16 (hashlib.sha256_hexdigest (commitment +:+ str_int bits)))) /\
    _verify_challenge self proof = Return true.
Proof.
  cbn zeta.
  destruct (generate_proof_fields p computation_result trace now)
    as (_ & _ & _ & Hc & _ & Hch & _ & _ & Hb).
  exists (prover._commit_to_trace p trace), (Z.of_N (prover.security_level p)).
  split; [exact Hc|]. split; [exact Hb|]. split; [exact Hch|].
  eapply verify_challenge_recomputed; eassumption.
Qed.

Lemma security_level_check_adequate (self : STARKVerifier) (proof : gmap string value)
    (bits : Z) :
  proof !! "security_bits" = Some (VInt bits) ->
  Z.of_N (security_level self) <= bits ->
  security_level_check self proof =
  Return (true, "Security level adequate (" +:+ str_int bits +:+ " bits)").
Proof.
  intros Hb Hle. unfold security_level_check, getitem.
  rewrite (get_found _ _ _ _ Hb), Hb. cbn.
  destruct (Z.leb_spec (Z.of_N (security_level self)) bits); [reflexivity|lia].
Qed.

(** A proof whose fields have the right shape is accepted: the commitment
    and the layers only need to look like digests, the evaluations only need
    to be in range, and [result], [version] and [computation] only need to
    be present. *)
Lemma verify_accepts_well_shaped (self : STARKVerifier) (proof : gmap string value)
    (commitment : string) (evs : list Z) (layers : list string) (bits : Z) :
  (forall field, field ∈ required_fields -> is_Some (proof !! field)) ->
  proof !! "trace_commitment" = Some (VStr commitment) ->
  design.hex64 commitment ->
  proof !! "constraint_evaluations" = Some (VList (map VInt evs)) ->
  evs <> [] ->
  Forall (fun e => 0 <= e < 2 ^ Z.of_N (security_level self)) evs ->
  proof !! "fri_layers" = Some (VList (map VStr layers)) ->
  layers <> [] ->
  Forall design.hex64 layers ->
  proof !! "challenge" =
    Some (VStr (str_take 16 (hashlib.sha256_hexdigest (commitment +:+ str_int bits)))) ->
  proof !! "security_bits" = Some (VInt bits) ->
  Z.of_N (security_level self) <= bits ->
  let accepted :=
    Result true "Proof is VALID"
      ["Proof structure is valid"; "Trace commitment verified";
       "Constraint evaluations verified"; "FRI proof layers verified";
       "Challenge generation verified";
       "Security level adequate (" +:+ str_int bits +:+ " bits)"] [] in
  verify self proof =
  (accepted, Verifier (security_level self) (verification_log self ++ [accepted])).
Proof.
  intros Hfields Hc Hhex He Hne Hrange Hl Hlne Hlhex Hch Hb Hle. cbn zeta.
  assert (Hstruct : _check_proof_structure self proof = true).
  { unfold _check_proof_structure.
    rewrite (get_found _ _ _ _ He), (get_found _ _ _ _ Hl).
    replace (forallb _ required_fields) with true; [reflexivity|].
    symmetry. apply forallb_forall. intros field Hin.
    apply bool_decide_eq_true, Hfields, list_elem_of_In, Hin. }
  assert (H3 : _verify_constraints self proof = Return true).
  { apply (verify_constraints_in_range self proof evs); try assumption.
    - eapply Forall_impl; [exact Hrange|]. cbn. intros; lia.
    - eapply Forall_impl; [exact Hrange|]. cbn. intros; lia. }
  unfold verify, verify_body. rewrite Hstruct.
  unfold mbind, block_bind, record, call.
  rewrite (verify_trace_commitment_hex64 _ _ _ Hc Hhex), H3,
    (verify_fri_layers_hex64 _ _ _ Hl Hlne Hlhex),
    (verify_challenge_recomputed _ _ _ _ Hc Hb Hch),
    (security_level_check_adequate _ _ _ Hb Hle).
  reflexivity.
Qed.

End EndToEnd.

Section Forgery.
Import verifier.
Context `{PyRepr}.

Lemma verify_well_shaped (self : STARKVerifier) (proof : gmap string value) (bits : Z) :
  well_shaped self proof bits ->
  let accepted :=
    Result true "Proof is VALID"
      ["Proof structure is valid"; "Trace commitment verified";
       "Constraint evaluations verified"; "FRI proof layers verified";
       "Challenge generation verified";
       "Security level adequate (" +:+ str_int bits +:+ " bits)"] [] in
  verify self proof =
  (accepted, Verifier (security_level self) (verification_log self ++ [accepted])).
Proof.
  intros (commitment & evs & layers & ? & ? & ? & ? & ? & ? & ? & ? & ? & ? & ? & ?).
  eapply verify_accepts_well_shaped; eassumption.
Qed.

Lemma generate_proof_well_shaped (p : prover.STARKProver) (self : STARKVerifier)
    (computation_result : Z) (trace : prover.ProofTrace) (now : pyfloat) :
  security_level self = prover.security_level p ->
  prover.steps trace <> [] ->
  well_shaped self (fst (prover.generate_proof p computation_result trace now))
              (Z.of_N (prover.security_level p)).
Proof.
  intros Hlevel Hsteps.
  destruct (generate_proof_fields p computation_result trace now)
    as (Hv & Hcomp & Hr & Hc & He & Hch & Hl & _ & Hb).
  cbn zeta in *.
  exists (prover._commit_to_trace p trace),
         (firstn 10 (prover._evaluate_constraints p trace)),
         (prover._fri_commit p (prover._evaluate_constraints p trace)
            (prover._generate_challenge p (prover._commit_to_trace p trace))).
  split.
  { intros field Hin. unfold required_fields in Hin.
    repeat (apply elem_of_cons in Hin as [->|Hin]; [eexists; eassumption|]).
    inversion Hin. }
  split; [exact Hc|]. split; [apply hexdigest_hex64|]. split; [exact He|].
  split.
  { rewrite evaluate_constraints_map. destruct (prover.steps trace); [congruence|discriminate]. }
  split; [rewrite Hlevel; apply Forall_take, evaluate_constraints_range|].
  split; [exact Hl|].
  split; [discriminate|].
  split; [apply fri_commit_digests|].
  split; [exact Hch|]. split; [exact Hb|]. rewrite Hlevel. lia.
Qed.

Lemma well_shaped_set_result (self : STARKVerifier) (proof : gmap string value)
    (bits : Z) (v : value) :
  well_shaped self proof bits -> well_shaped self (<["result" := v]> proof) bits.
Proof.
  intros (commitment & evs & layers & Hfields & Hrest).
  exists commitment, evs, layers. split.
  - intros field Hin. destruct (decide (field = "result")) as [->|Hne].
    + rewrite lookup_insert_eq. eexists; reflexivity.
    + rewrite lookup_insert_ne by done. apply Hfields, Hin.
  - rewrite !lookup_insert_ne by done. exact Hrest.
Qed.

Lemma get_set_result (proof : gmap string value) (v dflt : value) (key : string) :
  key <> "result" -> get (<["result" := v]> proof) key dflt = get proof key dflt.
Proof. intros Hne. unfold get. rewrite lookup_insert_ne by done. reflexivity. Qed.

(** No check reads [result]: once the field is present its value has no
    influence on what [verify] returns, for a verifier of any level and a
    proof of any content. *)
Lemma verify_result_independent (self : STARKVerifier) (proof : gmap string value)
    (v : value) :
  is_Some (proof !! "result") ->
  verify self (<["result" := v]> proof) = verify self proof.
Proof.
  intros Hsome.
  assert (Hstruct : _check_proof_structure self (<["result" := v]> proof) =
                    _check_proof_structure self proof).
  { unfold _check_proof_structure, required_fields. cbn [forallb].
    rewrite !get_set_result by done.
    rewrite lookup_insert_eq, !lookup_insert_ne by done.
    rewrite (bool_decide_eq_true_2 _ Hsome).
    rewrite (bool_decide_eq_true_2 (is_Some (Some v))) by (eexists; reflexivity).
    reflexivity. }
  assert (H2 : _verify_trace_commitment self (<["result" := v]> proof) =
               _verify_trace_commitment self proof).
  { unfold _verify_trace_commitment. rewrite !get_set_result by done. reflexivity. }
  assert (H3 : _verify_constraints self (<["result" := v]> proof) =
               _verify_constraints self proof).
  { unfold _verify_constraints. rewrite !get_set_result by done. reflexivity. }
  assert (H4 : _verify_fri_layers self (<["result" := v]> proof) =
               _verify_fri_layers self proof).
  { unfold _verify_fri_layers. rewrite !get_set_result by done. reflexivity. }
  assert (H5 : _verify_challenge self (<["result" := v]> proof) =
               _verify_challenge self proof).
  { unfold _verify_challenge. rewrite !get_set_result by done. reflexivity. }
  assert (H6 : security_level_check self (<["result" := v]> proof) =
               security_level_check self proof).
  { unfold security_level_check, getitem. rewrite !get_set_result by done.
    rewrite lookup_insert_ne by done. reflexivity. }
  unfold verify, verify_body. rewrite Hstruct, H2, H3, H4, H5, H6. reflexivity.
Qed.

(** C1: for a proof assembled from the trace of [n >= 0] and a verifier
    of the prover's level, overwriting [result] with any integer leaves the
    commitment, the challenge, the layers and every other field as they
    were, and [verify] returns on the mutated proof what it returns on the
    original: valid.  For a verifier of another level the two results are
    equal as well. *)
Theorem verify_ignores_result (p : prover.STARKProver) (self : STARKVerifier)
    (n : Z) (now : pyfloat) (forged : Z) :
  0 <= n ->
  security_level self = prover.security_level p ->
  exists result trace,
    prover.compute_fibonacci p n = Return (result, trace) /\
    let proof := fst (prover.generate_proof p result trace now) in
    let mutated := <["result" := VInt forged]> proof in
    mutated !! "result" = Some (VInt forged) /\
    mutated !! "trace_commitment" = proof !! "trace_commitment" /\
    mutated !! "challenge" = proof !! "challenge" /\
    mutated !! "fri_layers" = proof !! "fri_layers" /\
    (forall field, field <> "result" -> mutated !! field = proof !! field) /\
    verify self mutated = verify self proof /\
    valid (fst (verify self proof)) = true /\
    valid (fst (verify self mutated)) = true /\
    (forall other : STARKVerifier, verify other mutated = verify other proof).
Proof.
  intros Hn Hlevel.
  destruct (compute_fibonacci_returns p n Hn) as (result & trace & Hrun & Hsteps).
  exists result, trace. split; [exact Hrun|]. cbn zeta.
  pose proof (generate_proof_well_shaped p self result trace now Hlevel Hsteps) as Hshape.
  pose proof (well_shaped_set_result _ _ _ (VInt forged) Hshape) as Hshape'.
  apply verify_well_shaped in Hshape, Hshape'. cbn zeta in *.
  split; [apply lookup_insert_eq|].
  split; [by rewrite lookup_insert_ne|].
  split; [by rewrite lookup_insert_ne|].
  split; [by rewrite lookup_insert_ne|].
  split; [intros field Hne; by rewrite lookup_insert_ne|].
  rewrite Hshape, Hshape'. cbn [fst valid].
  split; [reflexivity|]. split; [reflexivity|]. split; [reflexivity|].
  intros other. apply verify_result_independent.
  destruct (generate_proof_fields p result trace now) as (_ & _ & Hr & _).
  cbn zeta in Hr. rewrite Hr. eexists; reflexivity.
Qed.

End Forgery.

(** ** The properties on concrete proofs *)

Section Examples.
Import verifier.

(** The digest that the sample proof carries as its commitment. *)
Example sha256_test :
  hashlib.sha256_hexdigest "test" =
  "9f86d081884c7d659a2feaa0c55ad015a3bf4f1b2b0b822cd15d6c15b0f00a08".
Proof. vm_compute. reflexivity. Qed.

Example sha256_layer1 :
  hashlib.sha256_hexdigest "layer1" =
  "77ea7eee3d80b1a38f83906dd3048e2689457eb90e18a7d12f839c5ae37106a2".
Proof. vm_compute. reflexivity. Qed.

Example sample_challenge_source :
  str_take 16 (hashlib.sha256_hexdigest "test128") = "3b47320028a4f635".
Proof. vm_compute. reflexivity. Qed.

(** The sample proof fails one check: its challenge is derived from the
    text [test], the verifier derives it from the commitment. *)
Example sample_proof_verdict :
  checks_failed (fst (@verify repr_sample (init 128) sample_proof)) =
  ["Challenge verification failed"].
Proof. vm_compute. reflexivity. Qed.

(** With the matching challenge it is accepted, its commitment and layers
    being digests of labels and bound to no trace. *)
Example forged_proof_accepted :
  valid (fst (@verify repr_sample (init 128) forged_proof)) = true.
Proof. vm_compute. reflexivity. Qed.

Lemma verify_rejects_malformed_witness :
  @verify repr_sample (init 128) sample_without_layers =
  (Result false "Proof structure validation failed" [] ["Invalid proof structure"], init 128).
Proof.
  apply (@verify_rejects_malformed repr_sample (init 128) sample_without_layers).
  left. exists "fri_layers". split.
  - unfold required_fields. repeat constructor.
  - vm_compute. reflexivity.
Defined.

Lemma verify_runs_all_checks_witness :
  let self := init 128 in
  let proof := sample_with_four_faults in
  exists b2 b3 b4 b5 b6 d6,
    _verify_trace_commitment self proof = Return b2 /\
    _verify_constraints self proof = Return b3 /\
    _verify_fri_layers self proof = Return b4 /\
    @_verify_challenge repr_sample self proof = Return b5 /\
    @security_level_check repr_sample self proof = Return (b6, d6) /\
    let entries :=
      [entry b2 "Trace commitment verified" "Trace commitment verification failed";
       entry b3 "Constraint evaluations verified" "Constraint evaluation verification failed";
       entry b4 "FRI proof layers verified" "FRI proof layer verification failed";
       entry b5 "Challenge generation verified" "Challenge verification failed";
       (b6, d6)] in
    let result := fst (@verify repr_sample self proof) in
    checks_passed result = "Proof structure is valid" :: descriptions entries true /\
    checks_failed result = descriptions entries false /\
    (length (descriptions entries true) + length (descriptions entries false) = 5)%nat /\
    (valid result = true <-> checks_failed result = []) /\
    message result = (if valid result then "Proof is VALID" else "Proof is INVALID") /\
    snd (@verify repr_sample self proof) =
      Verifier (security_level self) (verification_log self ++ [result]).
Proof.
  cbn zeta.
  eapply (@verify_runs_all_checks repr_sample (init 128) sample_with_four_faults).
  - vm_compute. reflexivity.
  - vm_compute. reflexivity.
Defined.

(** The four faults are all reported: no check is skipped after a failure. *)
Example four_faults_reported :
  checks_failed (fst (@verify repr_sample (init 128) sample_with_four_faults)) =
  ["Trace commitment verification failed"; "FRI proof layer verification failed";
   "Challenge verification failed"; "Insufficient security level (64 bits)"] /\
  checks_passed (fst (@verify repr_sample (init 128) sample_with_four_faults)) =
  ["Proof structure is valid"; "Constraint evaluations verified"].
Proof. vm_compute. split; reflexivity. Qed.

(** A raise inside a check ends the body: the later checks record nothing. *)
Example commitment_of_wrong_type :
  fst (@verify repr_sample (init 128) (<["trace_commitment" := VInt 7]> sample_proof)) =
  Result false "Verification error: object of type 'int' has no len()"
         ["Proof structure is valid"]
         ["Exception: object of type 'int' has no len()"].
Proof. vm_compute. reflexivity. Qed.

Lemma verify_ignores_result_witness :
  exists result trace,
    prover.compute_fibonacci (prover.init 128) 5 = Return (result, trace) /\
    let proof := fst (prover.generate_proof (prover.init 128) result trace (FFinite false 1 0)) in
    @verify repr_sample (init 128) (<["result" := VInt 77]> proof) =
      @verify repr_sample (init 128) proof /\
    valid (fst (@verify repr_sample (init 128) (<["result" := VInt 77]> proof))) = true.
Proof.
  destruct (@verify_ignores_result repr_sample (prover.init 128) (init 128) 5
              (FFinite false 1 0) 77) as (result & trace & Hrun & Hrest);
    [lia | reflexivity |].
  exists result, trace. split; [exact Hrun|]. cbn zeta in *.
  destruct Hrest as (_ & _ & _ & _ & _ & Hsame & _ & Hvalid & _).
  split; [exact Hsame | exact Hvalid].
Defined.

End Examples.

(** ** The trace builder in closed form *)

Section ClosedForm.
Import prover closed_form.

Lemma fib_step (k : nat) : fib (S (S k)) = fib (S k) + fib k.
Proof. reflexivity. Qed.

Lemma fib_nonneg (k : nat) : 0 <= fib k /\ 0 <= fib (S k).
Proof.
  induction k as [|k [IH1 IH2]]; [split; [reflexivity|discriminate]|].
  split; [exact IH2|]. rewrite fib_step. lia.
Qed.

Lemma numbered_app (start : nat) (a b : list (Operation * Z * Z * Z)) :
  numbered start (a ++ b) = numbered start a ++ numbered (start + length a) b.
Proof.
  revert start. induction a as [|[[[op i] o] d] a IH]; intros start; cbn.
  - rewrite Nat.add_0_r. reflexivity.
  - rewrite IH. replace (S start + length a)%nat with (start + S (length a))%nat by lia.
    reflexivity.
Qed.

Lemma numbered_length (start : nat) (qs : list (Operation * Z * Z * Z)) :
  length (numbered start qs) = length qs.
Proof.
  revert start. induction qs as [|[[[op i] o] d] qs IH]; intros start; cbn;
    [reflexivity|]. rewrite IH. reflexivity.
Qed.

Lemma numbered_quadruples (start : nat) (qs : list (Operation * Z * Z * Z)) :
  map (fun s => (operation s, input s, output s, depth s)) (numbered start qs) = qs.
Proof.
  revert start. induction qs as [|[[[op i] o] d] qs IH]; intros start; cbn;
    [reflexivity|]. rewrite IH. reflexivity.
Qed.

Lemma numbered_steps (start : nat) (qs : list (Operation * Z * Z * Z)) :
  map step (numbered start qs) = map Z.of_nat (seq start (length qs)).
Proof.
  revert start. induction qs as [|[[[op i] o] d] qs IH]; intros start; cbn;
    [reflexivity|]. rewrite IH. reflexivity.
Qed.

Lemma fib_with_trace_unfold (fuel : nat) (num d : Z) (env : Env) :
  fib_with_trace (S fuel) num d env =
  match memo env !! num with
  | Some v => Some (v, append_step env memo_lookup num v d)
  | None =>
      '(result, env') ←
        (if num =? 0 then Some (0, env)
         else if num =? 1 then Some (1, env)
         else
           '(a, env1) ← fib_with_trace fuel (num - 1) (d + 1) env;
           '(b, env2) ← fib_with_trace fuel (num - 2) (d + 1) env1;
           Some (a + b, env2));
      Some (result, append_step (memo_store env' num result) fib_compute num result d)
  end.
Proof. reflexivity. Qed.

(** The call for 1 on an empty memo. *)
Lemma fresh_run_1 (fuel : nat) (d : Z) (steps0 : list StepRecord) :
  fib_with_trace (S fuel) 1 d (MkEnv steps0 ∅) =
  Some (1, MkEnv (steps0 ++ numbered (length steps0) (chain 1 d)) (<[1 := 1]> ∅)).
Proof. reflexivity. Qed.

(** The call for [k >= 2] on an empty memo: its result, the steps it
    appends and the memo it leaves. *)
Lemma fresh_run (k : nat) :
  forall (fuel : nat) (d : Z) (steps0 : list StepRecord),
    (S (S k) <= fuel)%nat ->
    exists m,
      fib_with_trace fuel (Z.of_nat (S (S k))) d (MkEnv steps0 ∅) =
        Some (fib (S (S k)),
              MkEnv (steps0 ++ numbered (length steps0) (chain (S (S k)) d)) m) /\
      forall i, (i <= S (S k))%nat -> m !! Z.of_nat i = Some (fib i).
Proof.
  induction k as [|k IH]; intros fuel d steps0 Hfuel.
  - destruct fuel as [|[|fuel]]; [lia|lia|].
    exists (<[2 := 1]> (<[0 := 0]> (<[1 := 1]> ∅))). split.
    + change (Z.of_nat 2) with 2.
      rewrite fib_with_trace_unfold. cbn [memo]. rewrite lookup_empty.
      change (2 =? 0) with false. change (2 =? 1) with false. cbv iota.
      change (2 - 1) with 1. change (2 - 2) with 0.
      rewrite fresh_run_1. cbn [mbind option_bind].
      rewrite fib_with_trace_unfold. cbn [memo].
      rewrite lookup_insert_ne, lookup_empty by done.
      change (0 =? 0) with true. cbv iota. cbn [mbind option_bind].
      unfold append_step, memo_store. cbn [trace_steps memo chain fib]. cbn [numbered].
      rewrite !length_app. cbn [length]. rewrite <- !app_assoc. cbn [app].
      rewrite !Nat.add_1_r. reflexivity.
    + intros [|[|[|i]]] Hi; try lia; reflexivity.
  - destruct fuel as [|fuel]; [lia|].
    destruct (IH fuel (d + 1) steps0) as (m & Hrun & Hmemo); [lia|].
    cbn [fib_with_trace]. cbn [memo]. rewrite lookup_empty.
    destruct (Z.eqb_spec (Z.of_nat (S (S (S k)))) 0); [lia|].
    destruct (Z.eqb_spec (Z.of_nat (S (S (S k)))) 1); [lia|].
    replace (Z.of_nat (S (S (S k))) - 1) with (Z.of_nat (S (S k))) by lia.
    rewrite Hrun. cbn [mbind option_bind].
    replace (Z.of_nat (S (S (S k))) - 2) with (Z.of_nat (S k)) by lia.
    destruct fuel as [|fuel]; [lia|].
    cbn [fib_with_trace memo]. rewrite (Hmemo (S k)) by lia.
    cbn [mbind option_bind].
    eexists. split.
    + f_equal. f_equal.
      unfold append_step, memo_store. cbn [trace_steps memo]. f_equal.
      change (chain (S (S (S k))) d) with
        (chain (S (S k)) (d + 1) ++
         [(memo_lookup, Z.of_nat (S k), fib (S k), d + 1);
          (fib_compute, Z.of_nat (S (S (S k))), fib (S (S (S k))), d)]).
      rewrite numbered_app. cbn [numbered].
      rewrite !length_app, !numbered_length. cbn [length].
      rewrite <- !app_assoc. cbn [app].
      rewrite !Nat.add_1_r, (fib_step (S k)). reflexivity.
    + intros i Hi. cbn [memo].
      destruct (decide (i = S (S (S k)))) as [->|Hne].
      * rewrite lookup_insert_eq. reflexivity.
      * rewrite lookup_insert_ne by lia. apply Hmemo. lia.
Qed.

(** The builder's result and trace for every [n >= 0]. *)
Lemma compute_fibonacci_closed_form (self : STARKProver) (k : nat) :
  compute_fibonacci self (Z.of_nat k) =
  Return (fib k, Trace (numbered 0 (chain k 0)) (Z.of_nat k) (fib k)).
Proof.
  unfold compute_fibonacci, depth_bound.
  destruct (Z.ltb_spec (Z.of_nat k) 0); [lia|].
  rewrite Nat2Z.id.
  destruct k as [|[|k]]; [reflexivity|reflexivity|].
  destruct (fresh_run k (S (S (S k))) 0 []) as (m & Hrun & _); [lia|].
  rewrite Hrun. reflexivity.
Qed.

Lemma chain_step (k : nat) (d : Z) :
  chain (S (S k)) d =
  chain (S k) (d + 1) ++
  [(match k with O => fib_compute | S _ => memo_lookup end, Z.of_nat k, fib k, d + 1);
   (fib_compute, Z.of_nat (S (S k)), fib (S (S k)), d)].
Proof. reflexivity. Qed.

Lemma chain_length (k : nat) (d : Z) : length (chain (S k) d) = S (2 * k).
Proof.
  revert d. induction k as [|k IH]; intros d; [reflexivity|].
  rewrite chain_step, length_app, IH. cbn [length]. lia.
Qed.

Lemma chain_hits (k : nat) (d : Z) :
  length (List.filter is_hit (chain (S (S k)) d)) = k.
Proof.
  revert d. induction k as [|k IH]; intros d; [reflexivity|].
  rewrite chain_step, List.filter_app, length_app, IH. cbn. lia.
Qed.

Lemma chain_deeper (k : nat) (d : Z) : chain k (d + 1) = map deeper (chain k d).
Proof.
  destruct k as [|k]; [reflexivity|].
  revert d. induction k as [|k IH]; intros d; [reflexivity|].
  rewrite !chain_step, map_app, IH. reflexivity.
Qed.

Lemma chain_sound (k : nat) (d : Z) :
  Forall (fun q : Operation * Z * Z * Z =>
            let '(_, i, o, dd) := q in
            0 <= i <= Z.of_nat (S k) /\ o = fib (Z.to_nat i) /\ d <= dd <= d + Z.of_nat k)
         (chain (S k) d).
Proof.
  revert d. induction k as [|k IH]; intros d.
  - repeat constructor; cbn; lia.
  - rewrite chain_step. apply Forall_app. split.
    + eapply Forall_impl; [apply IH|]. intros [[[op i] o] dd]. cbn. lia.
    + repeat constructor; rewrite ?Nat2Z.id; try reflexivity; lia.
Qed.

Lemma compute_fibonacci_of_Z (self : STARKProver) (n : Z) :
  0 <= n ->
  compute_fibonacci self n =
  Return (fib (Z.to_nat n),
          Trace (numbered 0 (chain (Z.to_nat n) 0)) n (fib (Z.to_nat n))).
Proof.
  intros Hn. pose proof (compute_fibonacci_closed_form self (Z.to_nat n)) as Hrun.
  rewrite (Z2Nat.id n Hn) in Hrun. exact Hrun.
Qed.

(** X1: for [n >= 0] the builder returns the n-th Fibonacci number, and the
    trace records [n] as its input and that number as its output. *)
Theorem compute_fibonacci_is_fib (self : STARKProver) (n : Z) :
  0 <= n ->
  exists trace,
    compute_fibonacci self n = Return (fib (Z.to_nat n), trace) /\
    inputs_n trace = n /\
    outputs_result trace = fib (Z.to_nat n).
Proof.
  intros Hn. eexists. split; [apply compute_fibonacci_of_Z, Hn|].
  split; reflexivity.
Qed.

Lemma compute_fibonacci_is_fib_witness :
  exists trace, compute_fibonacci (init 128) 10 = Return (55, trace).
Proof.
  destruct (compute_fibonacci_is_fib (init 128) 10) as (trace & Hrun & _); [lia|].
  exists trace. exact Hrun.
Defined.

(** X2: the trace for [n >= 1] has [2 n - 1] steps (one step for [n = 0]),
    of which [n - 2] are memo lookups when [n >= 2] and none otherwise, and
    the step at position [k] carries the index [k]. *)
Theorem compute_fibonacci_trace_size (self : STARKProver) (n : Z) :
  0 <= n ->
  exists result trace,
    compute_fibonacci self n = Return (result, trace) /\
    Z.of_nat (length (steps trace)) = Z.max 1 (2 * n - 1) /\
    Z.of_nat (length (List.filter is_hit (quadruples trace))) = Z.max 0 (n - 2) /\
    map step (steps trace) = map Z.of_nat (seq 0 (length (steps trace))).
Proof.
  intros Hn. eexists _, _. split; [apply compute_fibonacci_of_Z, Hn|].
  unfold quadruples. cbn [steps].
  rewrite numbered_quadruples, numbered_length, numbered_steps.
  split; [|split; [|reflexivity]].
  - destruct (Z.to_nat n) as [|k] eqn:E; [cbn; lia|]. rewrite chain_length. lia.
  - destruct (Z.to_nat n) as [|[|k]] eqn:E; [cbn; lia|cbn; lia|].
    rewrite chain_hits. lia.
Qed.

Lemma compute_fibonacci_trace_size_witness :
  exists result trace,
    compute_fibonacci (init 128) 10 = Return (result, trace) /\
    Z.of_nat (length (steps trace)) = 19 /\
    Z.of_nat (length (List.filter is_hit (quadruples trace))) = 8.
Proof.
  destruct (compute_fibonacci_trace_size (init 128) 10)
    as (result & trace & Hrun & Hlen & Hhits & _); [lia|].
  exists result, trace. split; [exact Hrun|]. split; [exact Hlen|exact Hhits].
Defined.

(** X3: for [n >= 3] the trace for [n] is the trace for [n - 1] with every
    step one level deeper, followed by a memo lookup of [n - 2] at depth 1
    and the fresh computation of [n] at depth 0. *)
Theorem compute_fibonacci_trace_unfolds (self : STARKProver) (n : Z) :
  3 <= n ->
  exists result trace result' trace',
    compute_fibonacci self n = Return (result, trace) /\
    compute_fibonacci self (n - 1) = Return (result', trace') /\
    quadruples trace =
      map deeper (quadruples trace') ++
      [(memo_lookup, n - 2, fib (Z.to_nat (n - 2)), 1); (fib_compute, n, result, 0)].
Proof.
  intros Hn.
  destruct (Z.to_nat n) as [|[|[|k]]] eqn:E; [lia|lia|lia|].
  assert (n = Z.of_nat (S (S (S k)))) as -> by lia. clear E Hn.
  replace (Z.of_nat (S (S (S k))) - 1) with (Z.of_nat (S (S k))) by lia.
  replace (Z.of_nat (S (S (S k))) - 2) with (Z.of_nat (S k)) by lia.
  rewrite Nat2Z.id.
  eexists _, _, _, _.
  split; [apply compute_fibonacci_closed_form|].
  split; [apply compute_fibonacci_closed_form|].
  unfold quadruples. cbn [steps]. rewrite !numbered_quadruples.
  rewrite (chain_step (S k)), chain_deeper. reflexivity.
Qed.

Lemma compute_fibonacci_trace_unfolds_witness :
  exists trace trace',
    compute_fibonacci (init 128) 6 = Return (8, trace) /\
    compute_fibonacci (init 128) 5 = Return (5, trace') /\
    quadruples trace =
      map deeper (quadruples trace') ++ [(memo_lookup, 4, 3, 1); (fib_compute, 6, 8, 0)].
Proof.
  destruct (compute_fibonacci_trace_unfolds (init 128) 6)
    as (result & trace & result' & trace' & Hrun & Hrun' & Hq); [lia|].
  exists trace, trace'.
  assert (result = 8) as -> by (vm_compute in Hrun; congruence).
  assert (result' = 5) as -> by (vm_compute in Hrun'; congruence).
  split; [exact Hrun|]. split; [exact Hrun'|exact Hq].
Defined.

(** X4: in the trace for [n >= 0] every step has an input between 0 and
    [n], the Fibonacci number of that input as its output, and a depth
    between 0 and [n - 1] (0 when [n = 0]). *)
Theorem compute_fibonacci_steps_sound (self : STARKProver) (n : Z) :
  0 <= n ->
  exists result trace,
    compute_fibonacci self n = Return (result, trace) /\
    Forall (fun s => 0 <= input s <= n /\
                     output s = fib (Z.to_nat (input s)) /\
                     0 <= depth s <= Z.max 0 (n - 1))
           (steps trace).
Proof.
  intros Hn. eexists _, _. split; [apply compute_fibonacci_of_Z, Hn|].
  cbn [steps].
  assert (Hq : Forall (fun q : Operation * Z * Z * Z =>
                         let '(_, i, o, dd) := q in
                         0 <= i <= n /\ o = fib (Z.to_nat i) /\ 0 <= dd <= Z.max 0 (n - 1))
                      (chain (Z.to_nat n) 0)).
  { destruct (Z.to_nat n) as [|k] eqn:E.
    - repeat constructor; cbn; lia.
    - eapply Forall_impl; [apply chain_sound|].
      intros [[[op i] o] dd]. cbn. lia. }
  rewrite <- (numbered_quadruples 0 (chain (Z.to_nat n) 0)) in Hq.
  rewrite Forall_map in Hq.
  eapply Forall_impl; [exact Hq|]. intros s. cbn. tauto.
Qed.

Lemma compute_fibonacci_steps_sound_witness :
  exists result trace,
    compute_fibonacci (init 128) 10 = Return (result, trace) /\
    Forall (fun s => 0 <= input s <= 10 /\
                     output s = fib (Z.to_nat (input s)) /\
                     0 <= depth s <= 9)
           (steps trace).
Proof. apply (compute_fibonacci_steps_sound (init 128) 10). lia. Defined.

End ClosedForm.

(** ** What the committer and the assembled proof depend on *)

Section Reach.
Import prover.

(** On lists of at most one element [l[::2]] is [l], so the length test in
    the loop of [_fri_commit] selects between two equal lists. *)
Lemma fold_guard_redundant (l : list Z) :
  (if (1 <? length l)%nat then stride2 l else l) = stride2 l.
Proof. destruct l as [|x [|y l]]; reflexivity. Qed.

Lemma firstn_lookup_ext (n : nat) (a b : list Z) :
  (forall i, (i < n)%nat -> a !! i = b !! i) -> firstn n a = firstn n b.
Proof.
  revert a b. induction n as [|n IH]; intros a b Hsame; [reflexivity|].
  pose proof (Hsame 0%nat ltac:(lia)) as H0.
  destruct a as [|x a], b as [|y b]; cbn in H0; try discriminate; [reflexivity|].
  injection H0 as ->. cbn [firstn]. f_equal.
  apply IH. intros i Hi. apply (Hsame (S i)). lia.
Qed.

Lemma fri_commit_unfolded (self : STARKProver) (l : list Z) (challenge : string) :
  _fri_commit self l challenge =
  map (fun evals =>
         hashlib.sha256_hexdigest
           (json_array (map (fun e => json_string (str_int e)) (firstn 5 evals)) +:+ challenge))
      [l; stride2 l; stride2 (stride2 l)].
Proof.
  unfold _fri_commit. cbn [fri_loop app map]. rewrite !fold_guard_redundant. reflexivity.
Qed.

(** X5: the three layers read the evaluations at the positions 0 to 4, at
    the even positions up to 8 and at the multiples of four up to 16, and
    nothing else: two lists that agree at these nine positions get the
    same layers. *)
Theorem fri_commit_reads_nine_positions (self : STARKProver) (l l' : list Z)
    (challenge : string) :
  (forall i : nat, i ∈ [0; 1; 2; 3; 4; 6; 8; 12; 16]%nat -> l !! i = l' !! i) ->
  _fri_commit self l challenge = _fri_commit self l' challenge.
Proof.
  intros Hsame. rewrite !fri_commit_unfolded. cbn [map].
  assert (H0 : firstn 5 l = firstn 5 l').
  { apply firstn_lookup_ext. intros i Hi. apply Hsame.
    do 5 (destruct i as [|i]; [set_solver|]). lia. }
  assert (H1 : firstn 5 (stride2 l) = firstn 5 (stride2 l')).
  { apply firstn_lookup_ext. intros i Hi. rewrite !stride2_lookup. apply Hsame.
    do 5 (destruct i as [|i]; [set_solver|]). lia. }
  assert (H2 : firstn 5 (stride2 (stride2 l)) = firstn 5 (stride2 (stride2 l'))).
  { apply firstn_lookup_ext. intros i Hi. rewrite !stride2_lookup. apply Hsame.
    do 5 (destruct i as [|i]; [set_solver|]). lia. }
  rewrite H0, H1, H2. reflexivity.
Qed.

Lemma fri_commit_reads_nine_positions_witness :
  _fri_commit (init 128) [3; 1; 4; 1; 5; 9; 2; 6; 5; 3; 5; 8; 9; 7; 9; 3; 2; 3] "c" =
  _fri_commit (init 128) [3; 1; 4; 1; 5; 0; 2; 0; 5; 0; 0; 0; 9; 0; 0; 0; 2] "c".
Proof.
  apply fri_commit_reads_nine_positions.
  intros i Hi.
  repeat (apply elem_of_cons in Hi as [->|Hi]; [reflexivity|]).
  inversion Hi.
Defined.

Lemma chars_length (s : string) : length (chars s) = String.length s.
Proof. induction s as [|c s IH]; [reflexivity|]. cbn. f_equal. exact IH. Qed.

Lemma chars_str_take (n : nat) (s : string) : chars (str_take n s) = firstn n (chars s).
Proof.
  unfold str_take. revert s. induction n as [|n IH]; intros s.
  - destruct s; reflexivity.
  - destruct s as [|c s]; [reflexivity|]. cbn. f_equal. apply IH.
Qed.

Lemma generate_challenge_shape (self : STARKProver) (commitment : string) :
  String.length (_generate_challenge self commitment) = 16%nat /\
  Forall (fun c => str_contains c "0123456789abcdef" = true)
         (chars (_generate_challenge self commitment)).
Proof.
  unfold _generate_challenge.
  destruct (hexdigest_hex64 (commitment +:+ str_int (Z.of_N (security_level self))))
    as [Hlen Hhex].
  split.
  - rewrite <- chars_length, chars_str_take, length_firstn, chars_length, Hlen. reflexivity.
  - rewrite chars_str_take. apply Forall_take, Hhex.
Qed.

(** X6: whatever the trace, the assembled proof has exactly the nine
    fields, a commitment of 64 hex characters, a challenge of 16, at most
    ten evaluations, all in [0, 2^security_level), three layers of 64 hex
    characters, and it is also what the prover keeps in [proof_data]. *)
Theorem generate_proof_shape (self : STARKProver) (computation_result : Z)
    (trace : ProofTrace) (now : pyfloat) :
  let proof := fst (generate_proof self computation_result trace now) in
  exists commitment challenge evs layers,
    dom proof = list_to_set ["version"; "computation"; "result"; "trace_commitment";
                             "constraint_evaluations"; "challenge"; "fri_layers";
                             "timestamp"; "security_bits"] /\
    proof !! "trace_commitment" = Some (VStr commitment) /\ hex64 commitment /\
    proof !! "challenge" = Some (VStr challenge) /\
    String.length challenge = 16%nat /\
    Forall (fun c => str_contains c "0123456789abcdef" = true) (chars challenge) /\
    proof !! "constraint_evaluations" = Some (VList (map VInt evs)) /\
    (length evs <= 10)%nat /\
    Forall (fun e => 0 <= e < 2 ^ Z.of_N (security_level self)) evs /\
    proof !! "fri_layers" = Some (VList (map VStr layers)) /\
    length layers = 3%nat /\ Forall hex64 layers /\
    get_proof (snd (generate_proof self computation_result trace now)) = proof.
Proof.
  cbn zeta.
  exists (_commit_to_trace self trace),
         (_generate_challenge self (_commit_to_trace self trace)),
         (firstn 10 (_evaluate_constraints self trace)),
         (_fri_commit self (_evaluate_constraints self trace)
            (_generate_challenge self (_commit_to_trace self trace))).
  destruct (generate_challenge_shape self (_commit_to_trace self trace)) as [Hlen Hhex].
  split.
  { unfold generate_proof. cbn [fst]. rewrite !dom_insert_L, dom_empty_L. set_solver. }
  split; [unfold generate_proof; cbn [fst]; by simplify_map_eq|].
  split; [apply hexdigest_hex64|].
  split; [unfold generate_proof; cbn [fst]; by simplify_map_eq|].
  split; [exact Hlen|]. split; [exact Hhex|].
  split; [unfold generate_proof; cbn [fst]; by simplify_map_eq|].
  split; [rewrite length_firstn; lia|].
  split; [apply Forall_take, evaluate_constraints_range|].
  split; [unfold generate_proof; cbn [fst]; by simplify_map_eq|].
  split; [reflexivity|]. split; [apply fri_commit_digests|reflexivity].
Qed.

End Reach.

(** ** Every path through [verify] *)

Section Paths.
Import verifier acceptance.
Context `{PyRepr}.

(** The three ways [verify] ends: at the structural check, in the handler
    of the [try] block, or after the sixth check. *)
Lemma verify_paths (self : STARKVerifier) (proof : gmap string value) :
  (_check_proof_structure self proof = false /\
   verify self proof =
     (Result false "Proof structure validation failed" [] ["Invalid proof structure"], self))
  \/
  (_check_proof_structure self proof = true /\
   exists e ok ko,
     verify self proof =
       (Result false ("Verification error: " +:+ str_exn e)
               ("Proof structure is valid" :: ok)
               (("Exception: " +:+ str_exn e) :: ko), self))
  \/
  (_check_proof_structure self proof = true /\
   exists b2 b3 b4 b5 b6 d6,
     _verify_trace_commitment self proof = Return b2 /\
     _verify_constraints self proof = Return b3 /\
     _verify_fri_layers self proof = Return b4 /\
     _verify_challenge self proof = Return b5 /\
     security_level_check self proof = Return (b6, d6) /\
     let entries :=
       [entry b2 "Trace commitment verified" "Trace commitment verification failed";
        entry b3 "Constraint evaluations verified" "Constraint evaluation verification failed";
        entry b4 "FRI proof layers verified" "FRI proof layer verification failed";
        entry b5 "Challenge generation verified" "Challenge verification failed";
        (b6, d6)] in
     let result :=
       Result (forallb fst entries)
              (if forallb fst entries then "Proof is VALID" else "Proof is INVALID")
              ("Proof structure is valid" :: descriptions entries true)
              (descriptions entries false) in
     verify self proof =
       (result, Verifier (security_level self) (verification_log self ++ [result]))).
Proof.
  destruct (_check_proof_structure self proof) eqn:Hstruct.
  2: { left. split; [reflexivity|]. apply verify_structure_failure, Hstruct. }
  right. unfold verify, verify_body. rewrite Hstruct.
  unfold mbind, block_bind, record, call, mret, block_ret. cbn [pass].
  destruct (_verify_trace_commitment self proof) as [b2|e].
  2: { left. split; [reflexivity|]. exists e, [], []. reflexivity. }
  destruct (_verify_constraints self proof) as [b3|e].
  2: { left. split; [reflexivity|]. destruct b2; eexists e, _, _; reflexivity. }
  destruct (_verify_fri_layers self proof) as [b4|e].
  2: { left. split; [reflexivity|]. destruct b2, b3; eexists e, _, _; reflexivity. }
  destruct (_verify_challenge self proof) as [b5|e].
  2: { left. split; [reflexivity|]. destruct b2, b3, b4; eexists e, _, _; reflexivity. }
  destruct (security_level_check self proof) as [[b6 d6]|e].
  2: { left. split; [reflexivity|]. destruct b2, b3, b4, b5; eexists e, _, _; reflexivity. }
  right. split; [reflexivity|]. exists b2, b3, b4, b5, b6, d6.
  repeat (split; [reflexivity|]).
  destruct b2, b3, b4, b5, b6; reflexivity.
Qed.

(** X7: for every proof, the result is valid exactly when no failure is
    listed and exactly when the message is the accepting one; a valid result
    lists six passed checks, and no result comes without an entry. *)
Theorem verify_verdict_consistent (self : STARKVerifier) (proof : gmap string value) :
  let result := fst (verify self proof) in
  (valid result = true <-> checks_failed result = []) /\
  (valid result = true <-> message result = "Proof is VALID") /\
  (valid result = true -> length (checks_passed result) = 6%nat) /\
  checks_passed result ++ checks_failed result <> [].
Proof.
  cbn zeta.
  destruct (verify_paths self proof)
    as [[_ ->]|[(_ & e & ok & ko & ->)|(_ & b2 & b3 & b4 & b5 & b6 & d6 & _ & _ & _ & _ & _ & ->)]].
  - cbn. repeat split; intros; discriminate.
  - cbn. repeat split; intros; discriminate.
  - destruct b2, b3, b4, b5, b6; cbn;
      repeat split; intros; try reflexivity; discriminate.
Qed.

Lemma verify_keeps_log (self : STARKVerifier) (proof : gmap string value) :
  security_level (snd (verify self proof)) = security_level self /\
  verification_log (snd (verify self proof)) =
    (if completed (message (fst (verify self proof)))
     then verification_log self ++ [fst (verify self proof)]
     else verification_log self).
Proof.
  destruct (verify_paths self proof)
    as [[_ ->]|[(_ & e & ok & ko & ->)|(_ & b2 & b3 & b4 & b5 & b6 & d6 & _ & _ & _ & _ & _ & ->)]].
  - split; reflexivity.
  - split; reflexivity.
  - destruct b2, b3, b4, b5, b6; split; reflexivity.
Qed.

(** X8: [verify] never changes the verifier's level and never removes a
    log entry; a run that completes the six checks appends its result at
    the end of the log, while a structural failure or an exception leaves
    the log as it was. *)
Theorem verify_log_discipline (self : STARKVerifier) (proof : gmap string value) :
  let result := fst (verify self proof) in
  let self' := snd (verify self proof) in
  security_level self' = security_level self /\
  verification_log self' =
    (if completed (message result)
     then verification_log self ++ [result]
     else verification_log self).
Proof. cbn zeta. apply verify_keeps_log. Qed.

Lemma check_proof_structure_true (self : STARKVerifier) (proof : gmap string value) :
  _check_proof_structure self proof = true <->
  (forall field, field ∈ required_fields -> is_Some (proof !! field)) /\
  (exists l, proof !! "constraint_evaluations" = Some (VList l)) /\
  (exists l, proof !! "fri_layers" = Some (VList l)).
Proof.
  split.
  - intros Hstruct. unfold _check_proof_structure in Hstruct.
    destruct (forallb _ required_fields) eqn:Hall; [|discriminate].
    cbn [negb] in Hstruct.
    assert (Hfields : forall field, field ∈ required_fields -> is_Some (proof !! field)).
    { intros field Hin. rewrite forallb_forall in Hall.
      eapply bool_decide_eq_true_1, Hall, list_elem_of_In, Hin. }
    split; [exact Hfields|].
    unfold get in Hstruct.
    destruct (Hfields "constraint_evaluations") as [ce Hce]; [set_solver|].
    destruct (Hfields "fri_layers") as [fl Hfl]; [set_solver|].
    rewrite Hce, Hfl in Hstruct. cbn [default] in Hstruct.
    destruct ce; try discriminate. destruct fl; try discriminate.
    split; eexists; eassumption.
  - intros (Hfields & [l Hce] & [l' Hfl]). unfold _check_proof_structure.
    rewrite (get_found _ _ _ _ Hce), (get_found _ _ _ _ Hfl).
    replace (forallb _ required_fields) with true; [reflexivity|].
    symmetry. apply forallb_forall. intros field Hin.
    apply bool_decide_eq_true, Hfields, list_elem_of_In, Hin.
Qed.

(** X9: [verify] answers with the message of the structural check exactly
    when a required field is missing or one of [constraint_evaluations] and
    [fri_layers] is not a list; in every other case the first passed entry
    is the structural one. *)
Theorem verify_structural_message (self : STARKVerifier) (proof : gmap string value) :
  let result := fst (verify self proof) in
  let malformed :=
    (exists field, field ∈ required_fields /\ proof !! field = None) \/
    (forall l, proof !! "constraint_evaluations" <> Some (VList l)) \/
    (forall l, proof !! "fri_layers" <> Some (VList l)) in
  (message result = "Proof structure validation failed" <-> malformed) /\
  (~ malformed -> exists rest, checks_passed result = "Proof structure is valid" :: rest).
Proof.
  cbn zeta.
  assert (Hbad : (exists field, field ∈ required_fields /\ proof !! field = None) \/
                 (forall l, proof !! "constraint_evaluations" <> Some (VList l)) \/
                 (forall l, proof !! "fri_layers" <> Some (VList l)) ->
                 _check_proof_structure self proof = false).
  { intros Hm. destruct (_check_proof_structure self proof) eqn:Hstruct; [|reflexivity].
    apply check_proof_structure_true in Hstruct as (Hfields & [l Hce] & [l' Hfl]).
    destruct Hm as [(field & Hin & Hnone)|[Hno|Hno]].
    - destruct (Hfields field Hin) as [v Hv]. congruence.
    - destruct (Hno l Hce).
    - destruct (Hno l' Hfl). }
  assert (Hgood : _check_proof_structure self proof = false ->
                  (exists field, field ∈ required_fields /\ proof !! field = None) \/
                  (forall l, proof !! "constraint_evaluations" <> Some (VList l)) \/
                  (forall l, proof !! "fri_layers" <> Some (VList l))).
  { intros Hstruct.
    destruct (decide (Forall (fun field => is_Some (proof !! field)) required_fields))
      as [Hall|Hnot].
    - rewrite Forall_forall in Hall.
      destruct (proof !! "constraint_evaluations") as [ce|] eqn:Hce.
      2: { left. exists "constraint_evaluations". split; [set_solver|exact Hce]. }
      destruct (proof !! "fri_layers") as [fl|] eqn:Hfl.
      2: { left. exists "fri_layers". split; [set_solver|exact Hfl]. }
      destruct ce as [| | | | |l|]; try (right; left; intros ? ?; discriminate).
      destruct fl as [| | | | |l'|]; try (right; right; intros ? ?; discriminate).
      assert (_check_proof_structure self proof = true); [|congruence].
      apply check_proof_structure_true. split; [exact Hall|]. split; eexists; eassumption.
    - apply not_Forall_Exists in Hnot; [|intros field; apply _].
      apply Exists_exists in Hnot as (field & Hin & Hnone).
      left. exists field. split; [exact Hin|].
      unfold compose in Hnone.
      destruct (proof !! field) as [v|] eqn:Hv; [|reflexivity].
      exfalso. apply Hnone. exists v. reflexivity. }
  destruct (verify_paths self proof)
    as [[Hs Hv]|[(Hs & e & ok & ko & Hv)|(Hs & b2 & b3 & b4 & b5 & b6 & d6 & _ & _ & _ & _ & _ & Hv)]];
    rewrite Hv; cbn [fst message checks_passed].
  - split; [split; [intros _; apply Hgood, Hs|reflexivity]|].
    intros Hn. destruct Hn. apply Hgood, Hs.
  - split; [|intros _; eexists; reflexivity].
    split; [intros Habs; cbn in Habs; discriminate|].
    intros Hm. apply Hbad in Hm. congruence.
  - split; [|intros _; eexists; reflexivity].
    split; [intros Habs; destruct (forallb _ _); discriminate|].
    intros Hm. apply Hbad in Hm. congruence.
Qed.

End Paths.

(** ** What [verify] accepts *)

Section Acceptance.
Import verifier acceptance.
Context `{PyRepr}.

Lemma py_all_hex_inv (cs : list string) :
  py_all (fun c => in_str c hex_alphabet) (map VStr cs) = Return true ->
  Forall (fun c => str_contains c "0123456789abcdef" = true) cs.
Proof.
  induction cs as [|c cs IH]; intros Hall; [constructor|].
  cbn [map py_all in_str] in Hall. unfold hex_alphabet in Hall.
  destruct (str_contains c "0123456789abcdef") eqn:Hc; [|discriminate].
  constructor; [exact Hc|apply IH, Hall].
Qed.

Lemma first_hit_false_inv {A} (test : A -> outcome bool) (items : list A) :
  first_hit test items = Return false ->
  Forall (fun x => test x = Return false) items.
Proof.
  induction items as [|x items IH]; intros Hrun; [constructor|].
  cbn [first_hit] in Hrun.
  destruct (test x) as [[|]|e] eqn:Hx; try discriminate.
  constructor; [exact Hx|apply IH, Hrun].
Qed.

Lemma first_hit_false {A} (test : A -> outcome bool) (items : list A) :
  Forall (fun x => test x = Return false) items ->
  first_hit test items = Return false.
Proof.
  induction 1 as [|x items Hx _ IH]; [reflexivity|].
  cbn [first_hit]. rewrite Hx. exact IH.
Qed.

Lemma hex64_string (s : string) :
  (Z.of_nat (String.length s) =? 64) = true ->
  py_all (fun c => in_str c hex_alphabet) (map VStr (chars s)) = Return true ->
  hex64 s.
Proof.
  intros Hlen Hall. split; [apply Z.eqb_eq in Hlen; lia|apply py_all_hex_inv, Hall].
Qed.

Lemma malformed_layer_false (v : value) :
  malformed_layer v = Return false <-> exists s, v = VStr s /\ hex64 s.
Proof.
  split.
  - intros Hrun. destruct v as [| | | |s| |]; try discriminate.
    exists s. split; [reflexivity|]. cbn [malformed_layer] in Hrun.
    destruct (Z.of_nat (String.length s) =? 64) eqn:Hlen; [|discriminate].
    cbn [negb] in Hrun. unfold mbind, outcome_bind in Hrun.
    destruct (py_all _ _) as [[|]|e] eqn:Hall; try discriminate.
    apply hex64_string; assumption.
  - intros (s & -> & Hlen & Hhex). cbn [malformed_layer]. rewrite Hlen.
    cbn [Z.of_nat Z.eqb negb Pos.of_succ_nat Pos.eqb Pos.succ].
    rewrite (py_all_hex _ Hhex). reflexivity.
Qed.

Lemma layers_strings (items : list value) :
  Forall (fun v => exists s, v = VStr s /\ hex64 s) items ->
  exists layers, items = map VStr layers /\ Forall hex64 layers.
Proof.
  induction 1 as [|v items (s & -> & Hs) _ (layers & -> & Hl)].
  - exists []. split; [reflexivity|constructor].
  - exists (s :: layers). split; [reflexivity|constructor; assumption].
Qed.

Lemma in_range_tests (bound : Z) (v : value) :
  (not_natural v = Return false /\ py_ge_int v bound = Return false) <->
  exists z, as_int v = Some z /\ 0 <= z < bound.
Proof.
  split.
  - intros [Hnat Hge]. unfold not_natural in Hnat.
    destruct (as_int v) as [z|] eqn:Hz; [|discriminate].
    exists z. split; [reflexivity|].
    injection Hnat as Hnat. apply Z.ltb_ge in Hnat.
    destruct v as [|[|]|z'| | | |]; cbn in Hz, Hge; try discriminate;
      injection Hz as <-; injection Hge as Hge; apply Z.leb_gt in Hge; lia.
  - intros (z & Hz & Hlo & Hhi). unfold not_natural. rewrite Hz.
    split; [f_equal; apply Z.ltb_ge; lia|].
    destruct v as [|[|]|z'| | | |]; cbn in Hz; try discriminate;
      injection Hz as <-; cbn; f_equal; apply Z.leb_gt; lia.
Qed.

Lemma verify_constraints_true (self : STARKVerifier) (proof : gmap string value)
    (items : list value) :
  proof !! "constraint_evaluations" = Some (VList items) ->
  (_verify_constraints self proof = Return true <->
   items <> [] /\
   Forall (fun v => exists z, as_int v = Some z /\
                              0 <= z < 2 ^ Z.of_N (security_level self)) items).
Proof.
  intros Hget. unfold _verify_constraints. rewrite (get_found _ _ _ _ Hget).
  cbn [truthy py_iter]. unfold mbind, outcome_bind.
  split.
  - intros Hrun. destruct items as [|v items]; [discriminate|].
    split; [discriminate|]. cbn [length Nat.eqb negb] in Hrun.
    destruct (first_hit not_natural (v :: items)) as [[|]|e] eqn:Hnat; try discriminate.
    destruct (first_hit _ (v :: items)) as [[|]|e] eqn:Hge in Hrun; try discriminate.
    apply first_hit_false_inv in Hnat, Hge.
    rewrite Forall_forall in Hnat, Hge. apply Forall_forall. intros x Hx.
    apply in_range_tests. split; [apply Hnat, Hx|apply Hge, Hx].
  - intros [Hne Hall]. destruct items as [|v items]; [congruence|].
    cbn [length Nat.eqb negb].
    rewrite (first_hit_false not_natural).
    2: { eapply Forall_impl; [exact Hall|]. intros x Hx. cbn.
         apply (in_range_tests (2 ^ Z.of_N (security_level self))), Hx. }
    rewrite first_hit_false; [reflexivity|].
    eapply Forall_impl; [exact Hall|]. intros x Hx. cbn.
    apply (in_range_tests (2 ^ Z.of_N (security_level self))), Hx.
Qed.

Lemma verify_fri_layers_true (self : STARKVerifier) (proof : gmap string value)
    (items : list value) :
  proof !! "fri_layers" = Some (VList items) ->
  (_verify_fri_layers self proof = Return true <->
   exists layers, items = map VStr layers /\ layers <> [] /\ Forall hex64 layers).
Proof.
  intros Hget. split.
  - unfold _verify_fri_layers. rewrite (get_found _ _ _ _ Hget).
    cbn [truthy py_len py_iter]. unfold mbind, outcome_bind.
    intros Hrun. destruct items as [|v items]; [discriminate|].
    cbn [length Nat.eqb negb] in Hrun.
    destruct (Z.of_nat (S (length items)) <? 1); [discriminate|].
    destruct (first_hit malformed_layer (v :: items)) as [[|]|e] eqn:Hbad; try discriminate.
    apply first_hit_false_inv in Hbad.
    destruct (layers_strings (v :: items)) as (layers & Heq & Hhex).
    { eapply Forall_impl; [exact Hbad|]. intros x Hx. apply malformed_layer_false, Hx. }
    exists layers. split; [exact Heq|]. split; [|exact Hhex].
    destruct layers; [discriminate|discriminate].
  - intros (layers & -> & Hne & Hhex).
    eapply verify_fri_layers_hex64; eassumption.
Qed.

Lemma verify_trace_commitment_true (self : STARKVerifier) (proof : gmap string value)
    (commitment : string) :
  proof !! "trace_commitment" = Some (VStr commitment) ->
  (_verify_trace_commitment self proof = Return true <-> hex64 commitment).
Proof.
  intros Hget. split; [|apply verify_trace_commitment_hex64, Hget].
  unfold _verify_trace_commitment. rewrite (get_found _ _ _ _ Hget).
  cbn [py_len py_iter]. unfold mbind, outcome_bind. intros Hrun.
  destruct (Z.of_nat (String.length commitment) =? 64) eqn:Hlen; [|discriminate].
  destruct (py_all _ _) as [[|]|e] eqn:Hall; try discriminate.
  apply hex64_string; assumption.
Qed.

Lemma verify_challenge_true (self : STARKVerifier) (proof : gmap string value)
    (tc ch bits : value) :
  proof !! "trace_commitment" = Some tc ->
  proof !! "challenge" = Some ch ->
  proof !! "security_bits" = Some bits ->
  (_verify_challenge self proof = Return true <->
   exists commitment,
     tc = VStr commitment /\
     ch = VStr (str_take 16 (hashlib.sha256_hexdigest (commitment +:+ py_str bits)))).
Proof.
  intros Htc Hch Hbits. unfold _verify_challenge.
  rewrite (get_found _ _ _ _ Htc), (get_found _ _ _ _ Hch), (get_found _ _ _ _ Hbits).
  unfold mbind, outcome_bind. split.
  - intros Hrun. destruct tc as [| | | |c| |]; try discriminate.
    exists c. split; [reflexivity|]. cbn [py_add_str] in Hrun.
    injection Hrun as Hrun. destruct ch as [| | | |s| |]; try discriminate.
    cbn [py_eq_str] in Hrun. apply String.eqb_eq in Hrun. congruence.
  - intros (c & -> & ->). cbn [py_add_str py_eq_str]. rewrite String.eqb_refl. reflexivity.
Qed.

Lemma security_level_check_true (self : STARKVerifier) (proof : gmap string value)
    (bits : value) :
  proof !! "security_bits" = Some bits ->
  ((exists d, security_level_check self proof = Return (true, d)) <->
   py_ge_int bits (Z.of_N (security_level self)) = Return true).
Proof.
  intros Hbits. unfold security_level_check, getitem.
  rewrite (get_found _ _ _ _ Hbits), Hbits. unfold mbind, outcome_bind.
  destruct (py_ge_int bits _) as [[|]|e]; split;
    try (intros [d Hd]; discriminate); try discriminate; try reflexivity.
  intros _. eexists; reflexivity.
Qed.

(** X10: [verify] returns a valid result exactly for the proofs of the
    accepted shape.  Nothing else is required: the commitment and the layers
    are bound to no trace, and [result], [version] and [computation] only
    have to be present. *)
Theorem verify_accepts_iff (self : STARKVerifier) (proof : gmap string value) :
  valid (fst (verify self proof)) = true <-> accepted_shape self proof.
Proof.
  split.
  - intros Hvalid.
    destruct (verify_paths self proof)
      as [[_ Hv]|[(_ & e & ok & ko & Hv)|(Hs & b2 & b3 & b4 & b5 & b6 & d6
                                            & H2 & H3 & H4 & H5 & H6 & Hv)]];
      rewrite Hv in Hvalid; cbn [fst valid] in Hvalid; try discriminate.
    assert (b2 = true /\ b3 = true /\ b4 = true /\ b5 = true /\ b6 = true)
      as (-> & -> & -> & -> & ->) by (destruct b2, b3, b4, b5, b6; try discriminate; tauto).
    apply check_proof_structure_true in Hs as (Hfields & [items Hce] & [fitems Hfl]).
    destruct (Hfields "trace_commitment") as [tc Htc]; [set_solver|].
    destruct (Hfields "challenge") as [ch Hch]; [set_solver|].
    destruct (Hfields "security_bits") as [bits Hbits]; [set_solver|].
    apply (verify_challenge_true _ _ _ _ _ Htc Hch Hbits) in H5 as (c & -> & ->).
    apply (verify_trace_commitment_true _ _ _ Htc) in H2.
    apply (verify_constraints_true _ _ _ Hce) in H3 as [Hne Hall].
    apply (verify_fri_layers_true _ _ _ Hfl) in H4 as (layers & -> & Hlne & Hlhex).
    exists c, items, layers, bits.
    repeat (split; [assumption|]).
    split; [|assumption].
    apply (security_level_check_true _ _ _ Hbits). exists d6. exact H6.
  - intros (c & items & layers & bits & Hfields & Htc & Hhex & Hce & Hne & Hall
            & Hfl & Hlne & Hlhex & Hbits & Hge & Hch).
    destruct (verify_paths self proof)
      as [[Hs Hv]|[(Hs & e & ok & ko & Hv)|(Hs & b2 & b3 & b4 & b5 & b6 & d6
                                             & H2 & H3 & H4 & H5 & H6 & Hv)]].
    + assert (_check_proof_structure self proof = true); [|congruence].
      apply check_proof_structure_true. split; [exact Hfields|]. split; eexists; eassumption.
    + exfalso.
      assert (E2 : _verify_trace_commitment self proof = Return true)
        by (apply (verify_trace_commitment_true _ _ _ Htc), Hhex).
      assert (E3 : _verify_constraints self proof = Return true)
        by (apply (verify_constraints_true _ _ _ Hce); split; assumption).
      assert (E4 : _verify_fri_layers self proof = Return true)
        by (apply (verify_fri_layers_true _ _ _ Hfl); exists layers; auto).
      assert (E5 : _verify_challenge self proof = Return true)
        by (apply (verify_challenge_true _ _ _ _ _ Htc Hch Hbits); exists c; auto).
      destruct (proj2 (security_level_check_true _ _ _ Hbits) Hge) as [d E6].
      revert Hv. unfold verify, verify_body. rewrite Hs.
      unfold mbind, block_bind, record, call. rewrite E2, E3, E4, E5, E6.
      cbn. intros Hv. injection Hv as Hv _. discriminate.
    + rewrite Hv. cbn [fst valid].
      apply (verify_trace_commitment_true self _ _ Htc) in Hhex.
      assert (E3 : _verify_constraints self proof = Return true)
        by (apply (verify_constraints_true _ _ _ Hce); split; assumption).
      assert (E4 : _verify_fri_layers self proof = Return true)
        by (apply (verify_fri_layers_true _ _ _ Hfl); exists layers; auto).
      assert (E5 : _verify_challenge self proof = Return true)
        by (apply (verify_challenge_true _ _ _ _ _ Htc Hch Hbits); exists c; auto).
      destruct (proj2 (security_level_check_true _ _ _ Hbits) Hge) as [d E6].
      assert (b2 = true) as -> by congruence.
      assert (b3 = true) as -> by congruence.
      assert (b4 = true) as -> by congruence.
      assert (b5 = true) as -> by congruence.
      assert (b6 = true) as -> by congruence.
      reflexivity.
Qed.

End Acceptance.

(** ** Exceptions, levels and the fields that are read *)

Section Handler.
Import verifier acceptance.
Context `{PyRepr}.

(** X11: when the structure is right but [trace_commitment] is [None], a
    boolean, an integer or a float, the second check raises on [len]; the
    result is the handler's, with the interpreter's message, the structural
    entry as the only passed check and no entry from the checks 3 to 6, and
    it is not logged. *)
Theorem verify_unsized_commitment (self : STARKVerifier) (proof : gmap string value)
    (v : value) :
  _check_proof_structure self proof = true ->
  proof !! "trace_commitment" = Some v ->
  unsized v = true ->
  let text := "object of type " +:+ squote +:+ type_name v +:+ squote +:+ " has no len()" in
  verify self proof =
  (Result false ("Verification error: " +:+ text)
          ["Proof structure is valid"] ["Exception: " +:+ text], self).
Proof.
  intros Hs Hget Hv. cbn zeta. unfold verify, verify_body. rewrite Hs.
  unfold mbind, block_bind, record, call.
  assert (Hraise : _verify_trace_commitment self proof =
                   Raise (TypeError ("object of type " +:+ squote +:+ type_name v
                                     +:+ squote +:+ " has no len()"))).
  { unfold _verify_trace_commitment. rewrite (get_found _ _ _ _ Hget).
    destruct v; try discriminate; reflexivity. }
  rewrite Hraise. reflexivity.
Qed.

Lemma security_level_check_unordered (self : STARKVerifier) (proof : gmap string value)
    (v : value) :
  proof !! "security_bits" = Some v ->
  unordered v = true ->
  security_level_check self proof =
  Raise (TypeError ("'>=' not supported between instances of " +:+ squote +:+ type_name v
                    +:+ squote +:+ " and 'int'")).
Proof.
  intros Hget Hv. unfold security_level_check. rewrite (get_found _ _ _ _ Hget).
  destruct v; try discriminate; reflexivity.
Qed.

(** X12: when the structure is right but [security_bits] is [None], a
    string, a list or a dictionary, no run completes: the result is the
    handler's, not valid and not logged; and if the checks 2 to 5 return,
    the message is that of the comparison of the sixth. *)
Theorem verify_unordered_security_bits (self : STARKVerifier) (proof : gmap string value)
    (v : value) :
  _check_proof_structure self proof = true ->
  proof !! "security_bits" = Some v ->
  unordered v = true ->
  (exists e ok ko,
     verify self proof =
       (Result false ("Verification error: " +:+ str_exn e)
               ("Proof structure is valid" :: ok)
               (("Exception: " +:+ str_exn e) :: ko), self)) /\
  (forall b2 b3 b4 b5,
     _verify_trace_commitment self proof = Return b2 ->
     _verify_constraints self proof = Return b3 ->
     _verify_fri_layers self proof = Return b4 ->
     _verify_challenge self proof = Return b5 ->
     message (fst (verify self proof)) =
       "Verification error: '>=' not supported between instances of " +:+ squote
       +:+ type_name v +:+ squote +:+ " and 'int'").
Proof.
  intros Hs Hget Hv.
  pose proof (security_level_check_unordered self proof v Hget Hv) as Hraise.
  split.
  - destruct (verify_paths self proof)
      as [[Hs' _]|[(_ & e & ok & ko & Hrun)|(_ & b2 & b3 & b4 & b5 & b6 & d6
                                              & _ & _ & _ & _ & H6 & _)]].
    + congruence.
    + exists e, ok, ko. exact Hrun.
    + congruence.
  - intros b2 b3 b4 b5 H2 H3 H4 H5. unfold verify, verify_body. rewrite Hs.
    unfold mbind, block_bind, record, call. rewrite H2, H3, H4, H5, Hraise.
    destruct b2, b3, b4, b5; reflexivity.
Qed.

Lemma security_level_check_int (self : STARKVerifier) (proof : gmap string value)
    (bits : Z) :
  proof !! "security_bits" = Some (VInt bits) ->
  security_level_check self proof =
  Return (Z.of_N (security_level self) <=? bits,
          (if Z.of_N (security_level self) <=? bits
           then "Security level adequate ("
           else "Insufficient security level (") +:+ str_int bits +:+ " bits)").
Proof.
  intros Hb. unfold security_level_check, getitem.
  rewrite (get_found _ _ _ _ Hb), Hb. cbn.
  destruct (Z.of_N (security_level self) <=? bits); reflexivity.
Qed.

(** X13: the verdict on a proof assembled from a trace with at least one
    step, for a verifier of any level: the checks of commitment, layers and
    challenge pass; the range check fails when one of the stored evaluations
    reaches 2^L for the verifier's level L, which can only happen when L is
    below the prover's level; the level check fails when L is above it. *)
Theorem verify_assembled_proof (p : prover.STARKProver) (self : STARKVerifier)
    (computation_result : Z) (trace : prover.ProofTrace) (now : pyfloat) :
  prover.steps trace <> [] ->
  let proof := fst (prover.generate_proof p computation_result trace now) in
  let stored := firstn 10 (prover._evaluate_constraints p trace) in
  let in_range := forallb (fun e => e <? 2 ^ Z.of_N (security_level self)) stored in
  let adequate := Z.of_N (security_level self) <=? Z.of_N (prover.security_level p) in
  valid (fst (verify self proof)) = in_range && adequate /\
  checks_failed (fst (verify self proof)) =
    (if in_range then [] else ["Constraint evaluation verification failed"]) ++
    (if adequate then []
     else ["Insufficient security level (" +:+ str_int (Z.of_N (prover.security_level p))
           +:+ " bits)"]) /\
  (adequate = false -> in_range = true).
Proof.
  intros Hsteps. cbn zeta.
  destruct (generate_proof_fields p computation_result trace now)
    as (Hv & Hcomp & Hr & Hc & He & Hch & Hl & _ & Hb).
  cbn zeta in *.
  set (proof := fst (prover.generate_proof p computation_result trace now)) in *.
  assert (Hs : _check_proof_structure self proof = true).
  { apply check_proof_structure_true. split; [|split; eexists; eassumption].
    intros field Hin. unfold required_fields in Hin.
    repeat (apply elem_of_cons in Hin as [->|Hin]; [eexists; eassumption|]).
    inversion Hin. }
  assert (H2 : _verify_trace_commitment self proof = Return true)
    by (eapply verify_trace_commitment_hex64; [exact Hc|apply hexdigest_hex64]).
  assert (H3 : _verify_constraints self proof =
               Return (forallb (fun e => e <? 2 ^ Z.of_N (security_level self))
                               (firstn 10 (prover._evaluate_constraints p trace)))).
  { apply verify_constraints_ints; [exact He| |].
    - rewrite evaluate_constraints_map.
      destruct (prover.steps trace); [congruence|discriminate].
    - eapply Forall_impl; [apply Forall_take, evaluate_constraints_range|].
      cbn. intros; lia. }
  assert (H4 : _verify_fri_layers self proof = Return true)
    by (eapply verify_fri_layers_hex64;
        [exact Hl|discriminate|apply fri_commit_digests]).
  assert (H5 : _verify_challenge self proof = Return true)
    by (eapply verify_challenge_recomputed; eassumption).
  pose proof (security_level_check_int self proof _ Hb) as H6.
  assert (Hrun : valid (fst (verify self proof)) =
                 forallb (fun e => e <? 2 ^ Z.of_N (security_level self))
                         (firstn 10 (prover._evaluate_constraints p trace))
                 && (Z.of_N (security_level self) <=? Z.of_N (prover.security_level p)) /\
                 checks_failed (fst (verify self proof)) =
                 (if forallb (fun e => e <? 2 ^ Z.of_N (security_level self))
                             (firstn 10 (prover._evaluate_constraints p trace))
                  then [] else ["Constraint evaluation verification failed"]) ++
                 (if Z.of_N (security_level self) <=? Z.of_N (prover.security_level p)
                  then []
                  else ["Insufficient security level ("
                        +:+ str_int (Z.of_N (prover.security_level p)) +:+ " bits)"])).
  { unfold verify, verify_body. rewrite Hs.
    unfold mbind, block_bind, record, call. rewrite H2, H3, H4, H5, H6.
    destruct (forallb _ _), (Z.of_N (security_level self) <=? _); split; reflexivity. }
  destruct Hrun as [Hvalid Hfailed]. split; [exact Hvalid|]. split; [exact Hfailed|].
  intros Hlow. apply Z.leb_gt in Hlow.
  apply forallb_forall. intros e He'. apply Z.ltb_lt.
  assert (Hrange : Forall (fun e => 0 <= e < 2 ^ Z.of_N (prover.security_level p))
                          (firstn 10 (prover._evaluate_constraints p trace)))
    by apply Forall_take, evaluate_constraints_range.
  rewrite Forall_forall in Hrange. apply list_elem_of_In, Hrange in He'.
  assert (2 ^ Z.of_N (prover.security_level p) <= 2 ^ Z.of_N (security_level self))
    by (apply Z.pow_le_mono_r; lia).
  lia.
Qed.

(** X14: [verify] reads five fields and, of [version], [computation] and
    [result], only whether they are present: two proofs that agree on this
    much get the same result and leave the same log, whatever else they
    contain. *)
Theorem verify_reads_five_fields (self : STARKVerifier) (proof proof' : gmap string value) :
  (forall key, key ∈ ["trace_commitment"; "constraint_evaluations"; "challenge";
                      "fri_layers"; "security_bits"] ->
               proof !! key = proof' !! key) ->
  (forall key, key ∈ ["version"; "computation"; "result"] ->
               is_Some (proof !! key) <-> is_Some (proof' !! key)) ->
  verify self proof = verify self proof'.
Proof.
  intros Hread Hpresent.
  assert (Etc : proof !! "trace_commitment" = proof' !! "trace_commitment")
    by (apply Hread; repeat constructor).
  assert (Ece : proof !! "constraint_evaluations" = proof' !! "constraint_evaluations")
    by (apply Hread; repeat constructor).
  assert (Ech : proof !! "challenge" = proof' !! "challenge")
    by (apply Hread; repeat constructor).
  assert (Efl : proof !! "fri_layers" = proof' !! "fri_layers")
    by (apply Hread; repeat constructor).
  assert (Esb : proof !! "security_bits" = proof' !! "security_bits")
    by (apply Hread; repeat constructor).
  assert (Pv : bool_decide (is_Some (proof !! "version")) =
               bool_decide (is_Some (proof' !! "version")))
    by (apply bool_decide_ext, Hpresent; repeat constructor).
  assert (Pc : bool_decide (is_Some (proof !! "computation")) =
               bool_decide (is_Some (proof' !! "computation")))
    by (apply bool_decide_ext, Hpresent; repeat constructor).
  assert (Pr : bool_decide (is_Some (proof !! "result")) =
               bool_decide (is_Some (proof' !! "result")))
    by (apply bool_decide_ext, Hpresent; repeat constructor).
  assert (Hs : _check_proof_structure self proof = _check_proof_structure self proof').
  { unfold _check_proof_structure, required_fields, get. cbn [forallb].
    rewrite Etc, Ece, Ech, Efl, Esb, Pv, Pc, Pr. reflexivity. }
  assert (H2 : _verify_trace_commitment self proof = _verify_trace_commitment self proof')
    by (unfold _verify_trace_commitment, get; rewrite Etc; reflexivity).
  assert (H3 : _verify_constraints self proof = _verify_constraints self proof')
    by (unfold _verify_constraints, get; rewrite Ece; reflexivity).
  assert (H4 : _verify_fri_layers self proof = _verify_fri_layers self proof')
    by (unfold _verify_fri_layers, get; rewrite Efl; reflexivity).
  assert (H5 : _verify_challenge self proof = _verify_challenge self proof')
    by (unfold _verify_challenge, get; rewrite Etc, Ech, Esb; reflexivity).
  assert (H6 : security_level_check self proof = security_level_check self proof')
    by (unfold security_level_check, getitem, get; rewrite Esb; reflexivity).
  unfold verify, verify_body. rewrite Hs, H2, H3, H4, H5, H6. reflexivity.
Qed.

End Handler.

(** ** The properties of [verify] on the samples *)

Section MoreExamples.
Import verifier acceptance samples.

Lemma verify_verdict_consistent_witness :
  checks_failed (fst (@verify repr_sample (init 128) forged_proof)) = [] /\
  length (checks_passed (fst (@verify repr_sample (init 128) forged_proof))) = 6%nat.
Proof.
  destruct (@verify_verdict_consistent repr_sample (init 128) forged_proof)
    as ([Hfailed _] & _ & Hsix & _).
  split; [apply Hfailed|apply Hsix]; vm_compute; reflexivity.
Defined.

Lemma verify_structural_message_witness :
  exists rest,
    checks_passed (fst (@verify repr_sample (init 128) integer_commitment)) =
    "Proof structure is valid" :: rest.
Proof.
  apply (@verify_structural_message repr_sample (init 128) integer_commitment).
  intros [(field & Hin & Hnone)|[Hno|Hno]].
  - unfold required_fields in Hin.
    repeat (apply elem_of_cons in Hin as [->|Hin]; [vm_compute in Hnone; discriminate|]).
    inversion Hin.
  - eapply Hno. vm_compute. reflexivity.
  - eapply Hno. vm_compute. reflexivity.
Defined.

Lemma verify_accepts_iff_witness : @accepted_shape repr_sample (init 128) forged_proof.
Proof. apply (@verify_accepts_iff repr_sample). vm_compute. reflexivity. Defined.

Lemma verify_unsized_commitment_witness :
  @verify repr_sample (init 128) integer_commitment =
  (Result false "Verification error: object of type 'int' has no len()"
          ["Proof structure is valid"]
          ["Exception: object of type 'int' has no len()"], init 128).
Proof.
  apply (@verify_unsized_commitment repr_sample (init 128) integer_commitment (VInt 7));
    vm_compute; reflexivity.
Defined.

Lemma verify_unordered_security_bits_witness :
  message (fst (@verify repr_sample (init 128) textual_bits)) =
  "Verification error: '>=' not supported between instances of 'str' and 'int'".
Proof.
  destruct (@verify_unordered_security_bits repr_sample (init 128) textual_bits (VStr "128"))
    as [_ Hmessage]; [vm_compute; reflexivity ..|].
  apply (Hmessage true true true true); vm_compute; reflexivity.
Defined.

Lemma verify_assembled_proof_witness :
  let proof := fst (prover.generate_proof (prover.init 128) 5 one_step (FFinite false 1 0)) in
  valid (fst (@verify repr_sample (init 2) proof)) = false /\
  valid (fst (@verify repr_sample (init 128) proof)) = true /\
  valid (fst (@verify repr_sample (init 129) proof)) = false.
Proof.
  cbn zeta. split; [|split].
  - destruct (@verify_assembled_proof repr_sample (prover.init 128) (init 2) 5 one_step
                (FFinite false 1 0)) as [Hvalid _]; [discriminate|].
    rewrite Hvalid. vm_compute. reflexivity.
  - destruct (@verify_assembled_proof repr_sample (prover.init 128) (init 128) 5 one_step
                (FFinite false 1 0)) as [Hvalid _]; [discriminate|].
    rewrite Hvalid. vm_compute. reflexivity.
  - destruct (@verify_assembled_proof repr_sample (prover.init 128) (init 129) 5 one_step
                (FFinite false 1 0)) as [Hvalid _]; [discriminate|].
    rewrite Hvalid. vm_compute. reflexivity.
Defined.

Lemma verify_reads_five_fields_witness :
  @verify repr_sample (init 128) forged_proof = @verify repr_sample (init 128) relabelled.
Proof.
  apply (@verify_reads_five_fields repr_sample).
  - intros key Hin.
    repeat (apply elem_of_cons in Hin as [->|Hin]; [vm_compute; reflexivity|]).
    inversion Hin.
  - intros key Hin.
    repeat (apply elem_of_cons in Hin as [->|Hin];
            [split; intros _; vm_compute; eexists; reflexivity|]).
    inversion Hin.
Defined.

End MoreExamples.

(** ** The committed text determines the trace *)

Section Serialization.
Import prover text.

Lemma append_assoc (a b c : string) : (a +:+ b) +:+ c = a +:+ (b +:+ c).
Proof.
  induction a as [|x a IH]; [reflexivity|].
  change (String x ((a +:+ b) +:+ c) = String x (a +:+ (b +:+ c))). f_equal. exact IH.
Qed.

Lemma string_of_uint_numeric (d : Decimal.uint) :
  all_numeric (NilEmpty.string_of_uint d) = true.
Proof. induction d; cbn; try assumption; reflexivity. Qed.

Lemma str_int_numeric (z : Z) : all_numeric (str_int z) = true.
Proof.
  unfold str_int.
  destruct (Z.to_int z) as [d|d]; destruct d; try reflexivity;
    cbn; apply string_of_uint_numeric.
Qed.

Lemma str_int_inj (a b : Z) : str_int a = str_int b -> a = b.
Proof.
  unfold str_int. intros Heq.
  assert (Hnonnil : forall z, Z.to_int z <> Decimal.Pos Decimal.Nil /\
                              Z.to_int z <> Decimal.Neg Decimal.Nil).
  { intros [|p|p]; cbn; split; try discriminate;
      intros [= Hp]; apply (DecimalPos.Unsigned.to_uint_nonnil p Hp). }
  apply DecimalZ.to_int_inj.
  assert (Some (Z.to_int a) = Some (Z.to_int b)) as [= ->]; [|reflexivity].
  rewrite <- (NilZero.isi (Z.to_int a)), <- (NilZero.isi (Z.to_int b)), Heq;
    try apply Hnonnil. reflexivity.
Qed.

(** Two numeric texts, each followed by a character that is not numeric:
    equal wholes have equal parts. *)
Lemma numeric_prefix (s1 s2 : string) (c1 c2 : ascii) (r1 r2 : string) :
  all_numeric s1 = true -> all_numeric s2 = true ->
  numeric c1 = false -> numeric c2 = false ->
  s1 +:+ String c1 r1 = s2 +:+ String c2 r2 ->
  s1 = s2 /\ String c1 r1 = String c2 r2.
Proof.
  revert s2. induction s1 as [|x s1 IH]; intros [|y s2] H1 H2 Hc1 Hc2 Heq; cbn in *.
  - split; [reflexivity|exact Heq].
  - injection Heq as -> _. apply andb_prop in H2 as [Hy _]. congruence.
  - injection Heq as -> _. apply andb_prop in H1 as [Hx _]. congruence.
  - injection Heq as -> Heq.
    apply andb_prop in H1 as [_ H1]. apply andb_prop in H2 as [_ H2].
    destruct (IH s2 H1 H2 Hc1 Hc2 Heq) as [-> Hr]. split; [reflexivity|exact Hr].
Qed.

Lemma str_int_prefix (a b : Z) (c1 c2 : ascii) (r1 r2 : string) :
  numeric c1 = false -> numeric c2 = false ->
  str_int a +:+ String c1 r1 = str_int b +:+ String c2 r2 ->
  a = b /\ String c1 r1 = String c2 r2.
Proof.
  intros Hc1 Hc2 Heq.
  destruct (numeric_prefix _ _ _ _ _ _ (str_int_numeric a) (str_int_numeric b) Hc1 Hc2 Heq)
    as [Hs Hr].
  split; [apply str_int_inj, Hs|exact Hr].
Qed.

Lemma str_int_delimited (a b : Z) (r1 r2 : string) :
  delimited r1 = true -> delimited r2 = true ->
  str_int a +:+ r1 = str_int b +:+ r2 ->
  a = b /\ r1 = r2.
Proof.
  destruct r1 as [|c1 r1], r2 as [|c2 r2]; try discriminate.
  cbn [delimited]. intros Hc1 Hc2. apply negb_true_iff in Hc1, Hc2.
  apply str_int_prefix; assumption.
Qed.

Lemma append_inj_l (a b c : string) : a +:+ b = a +:+ c -> b = c.
Proof.
  induction a as [|x a IH]; [exact (fun Heq => Heq)|].
  intros Heq. change (String x (a +:+ b) = String x (a +:+ c)) in Heq.
  injection Heq as Heq. apply IH, Heq.
Qed.

Lemma append_empty_r (a : string) : a +:+ EmptyString = a.
Proof.
  induction a as [|x a IH]; [reflexivity|].
  change (String x (a +:+ EmptyString) = String x a). f_equal. exact IH.
Qed.

(** The text of a step followed by [rest], with the four integers set apart. *)
Lemma json_step_text (s : StepRecord) (rest : string) :
  json_step s +:+ rest =
  ("{" +:+ json_string "depth" +:+ ": ") +:+
  (str_int (depth s) +:+
  ((", " +:+ json_string "input" +:+ ": ") +:+
  (str_int (input s) +:+
  ((", " +:+ json_string "operation" +:+ ": " +:+ json_string (operation_name (operation s))
    +:+ ", " +:+ json_string "output" +:+ ": ") +:+
  (str_int (output s) +:+
  ((", " +:+ json_string "step" +:+ ": ") +:+
  (str_int (step s) +:+ String "}" rest))))))).
Proof.
  unfold json_step, json_object, json_member, json_string. cbn [join].
  rewrite !append_assoc. reflexivity.
Qed.

(** A step text is self-delimiting: from a text that starts with one, the
    step and what follows it can be told. *)
Lemma json_step_prefix (s1 s2 : StepRecord) (r1 r2 : string) :
  json_step s1 +:+ r1 = json_step s2 +:+ r2 -> s1 = s2 /\ r1 = r2.
Proof.
  rewrite !json_step_text. intros Heq.
  destruct s1 as [k1 op1 i1 o1 d1], s2 as [k2 op2 i2 o2 d2]. cbn [depth input output step operation] in Heq.
  apply append_inj_l in Heq.
  apply str_int_delimited in Heq as [-> Heq]; [|reflexivity|reflexivity].
  apply append_inj_l in Heq.
  apply str_int_delimited in Heq as [-> Heq]; [|reflexivity|reflexivity].
  assert (Hop : op1 = op2).
  { destruct op1, op2; try reflexivity; cbn in Heq; discriminate. }
  subst op2. apply append_inj_l in Heq.
  apply str_int_delimited in Heq as [-> Heq]; [|reflexivity|reflexivity].
  apply append_inj_l in Heq.
  apply str_int_delimited in Heq as [-> Heq]; [|reflexivity|reflexivity].
  injection Heq as ->. split; reflexivity.
Qed.

Lemma join_cons (sep x : string) (l : list string) :
  join sep (x :: l) =
  x +:+ match l with
        | [] => EmptyString
        | _ :: _ => sep +:+ join sep l
        end.
Proof. destruct l; [symmetry; apply append_empty_r|reflexivity]. Qed.

Lemma json_steps_prefix (l1 l2 : list StepRecord) (t1 t2 : string) :
  join ", " (map json_step l1) +:+ String "]" t1 =
  join ", " (map json_step l2) +:+ String "]" t2 ->
  l1 = l2 /\ t1 = t2.
Proof.
  revert l2. induction l1 as [|x1 l1 IH]; intros [|x2 l2] Heq.
  - cbn in Heq. injection Heq as ->. split; reflexivity.
  - exfalso. cbn [map] in Heq. rewrite join_cons, append_assoc, json_step_text in Heq.
    cbn in Heq. discriminate.
  - exfalso. cbn [map] in Heq. rewrite join_cons, append_assoc, json_step_text in Heq.
    cbn in Heq. discriminate.
  - cbn [map] in Heq. rewrite !join_cons, !append_assoc in Heq.
    apply json_step_prefix in Heq as [-> Heq].
    destruct l1 as [|y1 l1], l2 as [|y2 l2].
    + cbn in Heq. injection Heq as ->. split; reflexivity.
    + exfalso. cbn in Heq. discriminate.
    + exfalso. cbn in Heq. discriminate.
    + cbn [map] in Heq. rewrite !append_assoc in Heq. apply append_inj_l in Heq.
      destruct (IH (y2 :: l2) Heq) as [-> ->]. split; reflexivity.
Qed.

Lemma json_trace_text (t : ProofTrace) :
  json_trace t =
  ("{" +:+ json_string "inputs" +:+ ": {" +:+ json_string "n" +:+ ": ") +:+
  (str_int (inputs_n t) +:+
  (("}, " +:+ json_string "outputs" +:+ ": {" +:+ json_string "result" +:+ ": ") +:+
  (str_int (outputs_result t) +:+
  (("}, " +:+ json_string "steps" +:+ ": [") +:+
  (join ", " (map json_step (steps t)) +:+ String "]" "}"))))).
Proof.
  unfold json_trace, json_object, json_array, json_member, json_string. cbn [join].
  rewrite !append_assoc. reflexivity.
Qed.

Lemma json_trace_inj (t1 t2 : ProofTrace) : json_trace t1 = json_trace t2 -> t1 = t2.
Proof.
  rewrite !json_trace_text. intros Heq.
  destruct t1 as [l1 n1 r1], t2 as [l2 n2 r2]. cbn [steps inputs_n outputs_result] in Heq.
  apply append_inj_l in Heq.
  apply str_int_delimited in Heq as [-> Heq]; [|reflexivity|reflexivity].
  apply append_inj_l in Heq.
  apply str_int_delimited in Heq as [-> Heq]; [|reflexivity|reflexivity].
  apply append_inj_l in Heq.
  apply json_steps_prefix in Heq as [-> _]. reflexivity.
Qed.

(** X15: the text that [_commit_to_trace] hashes determines the trace: two
    traces that differ anywhere (in a depth, an index, an operation, an
    input or an output, or in the number of steps) are serialized to
    different texts. *)
Theorem commit_text_separates_traces (self : STARKProver) (t1 t2 : ProofTrace) :
  t1 <> t2 ->
  json_trace t1 <> json_trace t2 /\
  _commit_to_trace self t1 = hashlib.sha256_hexdigest (json_trace t1) /\
  _commit_to_trace self t2 = hashlib.sha256_hexdigest (json_trace t2).
Proof.
  intros Hne. split; [|split; reflexivity].
  intros Heq. apply Hne, json_trace_inj, Heq.
Qed.

Lemma commit_text_separates_traces_witness :
  json_trace shallow_trace <> json_trace deep_trace.
Proof.
  apply (commit_text_separates_traces (init 128) shallow_trace deep_trace).
  discriminate.
Defined.

End Serialization.

(** ** What the stored evaluations say about [n], and runs in sequence *)

Section Sample.
Import prover closed_form.

Lemma chain_outputs_prefix (k : nat) (d : Z) :
  firstn 10 (map (fun q : Operation * Z * Z * Z => q.1.2) (chain (6 + k) d)) =
  [1; 0; 1; 1; 2; 1; 3; 2; 5; 3].
Proof.
  revert d. induction k as [|k IH]; intros d; [reflexivity|].
  change (6 + S k)%nat with (S (S (5 + k))).
  rewrite chain_step, map_app, firstn_app.
  replace (10 - length _)%nat with 0%nat.
  - cbn [firstn]. rewrite app_nil_r. apply (IH (d + 1)).
  - rewrite length_map, chain_length. lia.
Qed.

Lemma numbered_outputs (start : nat) (qs : list (Operation * Z * Z * Z)) :
  map output (numbered start qs) = map (fun q : Operation * Z * Z * Z => q.1.2) qs.
Proof.
  revert start. induction qs as [|[[[op i] o] d] qs IH]; intros start; cbn;
    [reflexivity|]. rewrite IH. reflexivity.
Qed.

(** X16: for every [n >= 6] and a security level of at least 3 bits, the
    proof assembled from the trace of [n] stores the same ten evaluations,
    1, 0, 1, 1, 2, 1, 3, 2, 5, 3: the stored sample does not depend on [n]. *)
Theorem stored_evaluations_constant (self : STARKProver) (n : Z) (now : pyfloat) :
  6 <= n ->
  (3 <= security_level self)%N ->
  exists result trace,
    compute_fibonacci self n = Return (result, trace) /\
    fst (generate_proof self result trace now) !! "constraint_evaluations" =
    Some (VList (map VInt [1; 0; 1; 1; 2; 1; 3; 2; 5; 3])).
Proof.
  intros Hn Hlevel. eexists _, _. split; [apply compute_fibonacci_of_Z; lia|].
  rewrite generate_proof_constraint_evaluations, evaluate_constraints_map.
  cbn [steps]. do 3 f_equal.
  assert (Hpow : 8 <= 2 ^ Z.of_N (security_level self)).
  { change 8 with (2 ^ 3). apply Z.pow_le_mono_r; lia. }
  rewrite <- (map_map output (fun o => o mod 2 ^ Z.of_N (security_level self))).
  rewrite numbered_outputs, firstn_map.
  replace (Z.to_nat n) with (6 + (Z.to_nat n - 6))%nat by lia.
  rewrite chain_outputs_prefix. cbn [map].
  rewrite !Z.mod_small by lia. reflexivity.
Qed.

Lemma stored_evaluations_constant_witness :
  exists result trace,
    compute_fibonacci (init 128) 12 = Return (result, trace) /\
    fst (generate_proof (init 128) result trace FNaN) !! "constraint_evaluations" =
    Some (VList (map VInt [1; 0; 1; 1; 2; 1; 3; 2; 5; 3])).
Proof.
  apply (stored_evaluations_constant (init 128) 12 FNaN); [lia|].
  apply N.leb_le. reflexivity.
Defined.

End Sample.

Section Sequence.
Import verifier acceptance.
Context `{PyRepr}.

Lemma verify_level_only (self self' : STARKVerifier) (proof : gmap string value) :
  verifier.security_level self = verifier.security_level self' ->
  fst (verify self proof) = fst (verify self' proof).
Proof.
  intros Hlevel. destruct self as [level log], self' as [level' log'].
  cbn in Hlevel. subst level'.
  unfold verify, verify_body.
  change (_check_proof_structure (Verifier level log') proof)
    with (_check_proof_structure (Verifier level log) proof).
  destruct (_check_proof_structure (Verifier level log) proof); [|reflexivity].
  unfold mbind, block_bind, record, call, mret, block_ret. cbn [pass].
  change (_verify_trace_commitment (Verifier level log') proof)
    with (_verify_trace_commitment (Verifier level log) proof).
  change (_verify_constraints (Verifier level log') proof)
    with (_verify_constraints (Verifier level log) proof).
  change (_verify_fri_layers (Verifier level log') proof)
    with (_verify_fri_layers (Verifier level log) proof).
  change (_verify_challenge (Verifier level log') proof)
    with (_verify_challenge (Verifier level log) proof).
  change (security_level_check (Verifier level log') proof)
    with (security_level_check (Verifier level log) proof).
  destruct (_verify_trace_commitment _ proof) as [b2|e]; [|reflexivity].
  destruct (_verify_constraints _ proof) as [b3|e]; [|destruct b2; reflexivity].
  destruct (_verify_fri_layers _ proof) as [b4|e]; [|destruct b2, b3; reflexivity].
  destruct (_verify_challenge _ proof) as [b5|e]; [|destruct b2, b3, b4; reflexivity].
  destruct (security_level_check _ proof) as [[b6 d6]|e];
    [|destruct b2, b3, b4, b5; reflexivity].
  destruct b2, b3, b4, b5, b6; reflexivity.
Qed.

(** X17: two runs in sequence on one verifier: the second result is what a
    fresh verifier of the same level returns, so no verdict depends on
    earlier runs, and the log ends with the results of the completed runs
    in the order of the calls. *)
Theorem verify_twice (self : STARKVerifier) (proof1 proof2 : gmap string value) :
  let r1 := fst (verify self proof1) in
  let s1 := snd (verify self proof1) in
  let r2 := fst (verify s1 proof2) in
  let s2 := snd (verify s1 proof2) in
  r2 = fst (verify (verifier.init (verifier.security_level self)) proof2) /\
  verification_log s2 =
    verification_log self ++
    (if completed (message r1) then [r1] else []) ++
    (if completed (message r2) then [r2] else []).
Proof.
  cbn zeta.
  destruct (verify_keeps_log self proof1) as [Hlevel1 Hlog1].
  destruct (verify_keeps_log (snd (verify self proof1)) proof2) as [_ Hlog2].
  split.
  - apply verify_level_only. rewrite Hlevel1. reflexivity.
  - rewrite Hlog2, Hlog1.
    destruct (completed (message (fst (verify self proof1)))),
             (completed (message (fst (verify (snd (verify self proof1)) proof2))));
      rewrite <- ?app_assoc, ?app_nil_r; reflexivity.
Qed.

End Sequence.

(** ** The trace builder under the interpreter's recursion limit *)

Section RecursionLimit.
Import prover closed_form.

(** With an empty memo the calls for [k], [k - 1], ..., 1 are all on the
    stack at once: too few frames and the recursion is cut off. *)
Lemma fib_with_trace_exhausted (fuel : nat) :
  forall (k : nat) (d : Z) (steps0 : list StepRecord),
    (fuel < Nat.max 1 k)%nat ->
    fib_with_trace fuel (Z.of_nat k) d (MkEnv steps0 ∅) = None.
Proof.
  induction fuel as [|fuel IH]; intros k d steps0 Hfuel; [reflexivity|].
  rewrite fib_with_trace_unfold. cbn [memo]. rewrite lookup_empty.
  destruct (Z.eqb_spec (Z.of_nat k) 0); [lia|].
  destruct (Z.eqb_spec (Z.of_nat k) 1); [lia|].
  replace (Z.of_nat k - 1) with (Z.of_nat (k - 1)) by lia.
  rewrite IH by lia. reflexivity.
Qed.

(** With [max 1 k] frames or more the call completes, with the result and
    the steps of the closed form. *)
Lemma fib_with_trace_fits (fuel k : nat) :
  (Nat.max 1 k <= fuel)%nat ->
  exists m,
    fib_with_trace fuel (Z.of_nat k) 0 (MkEnv [] ∅) =
    Some (fib k, MkEnv (numbered 0 (chain k 0)) m).
Proof.
  intros Hfuel. destruct k as [|[|k]].
  - destruct fuel as [|fuel]; [lia|]. eexists. reflexivity.
  - destruct fuel as [|fuel]; [lia|]. eexists. apply (fresh_run_1 fuel 0 []).
  - destruct (fresh_run k fuel 0 []) as (m & Hrun & _); [lia|].
    exists m. exact Hrun.
Qed.

Lemma compute_fibonacci_within_fits (frames : nat) (self : STARKProver) (n : Z) :
  0 <= n -> Z.max 1 n <= Z.of_nat frames ->
  compute_fibonacci_within frames self n =
  Return (fib (Z.to_nat n), Trace (numbered 0 (chain (Z.to_nat n) 0)) n (fib (Z.to_nat n))).
Proof.
  intros Hn Hfits. unfold compute_fibonacci_within.
  destruct (Z.ltb_spec n 0); [lia|].
  destruct (fib_with_trace_fits frames (Z.to_nat n)) as [m Hrun]; [lia|].
  rewrite (Z2Nat.id n Hn) in Hrun. rewrite Hrun. reflexivity.
Qed.

Lemma compute_fibonacci_within_exhausted (frames : nat) (self : STARKProver) (n : Z) :
  0 <= n -> Z.of_nat frames < Z.max 1 n ->
  compute_fibonacci_within frames self n =
  Raise (RecursionError "maximum recursion depth exceeded").
Proof.
  intros Hn Hshort. unfold compute_fibonacci_within.
  destruct (Z.ltb_spec n 0); [lia|].
  pose proof (fib_with_trace_exhausted frames (Z.to_nat n) 0 []) as Hrun.
  rewrite (Z2Nat.id n Hn) in Hrun. rewrite Hrun by lia. reflexivity.
Qed.

(** C9 as stated does not hold: with the 998 frames that a recursion limit
    of 1000 leaves to a call from the top level of a script, the builder
    does not return for [n = 1000]; the recursion is cut off. *)
Lemma compute_fibonacci_1000_does_not_return :
  0 <= 1000 /\
  ~ (exists result trace,
       compute_fibonacci_within 998 (init 128) 1000 = Return (result, trace)).
Proof.
  split; [lia|]. intros (result & trace & Hrun).
  rewrite compute_fibonacci_within_exhausted in Hrun;
    [discriminate|lia|vm_compute; reflexivity].
Qed.

(** C9, amended: a negative [n] raises the [ValueError] of the guard, and the
    raise carries no result and no trace; for [n >= 0] the builder never
    raises a [ValueError]: when the [max 1 n] nested calls fit in the frames
    that the recursion limit leaves it returns a result and a trace, the
    same as with an unbounded stack, and otherwise it raises
    [RecursionError]. *)
Theorem compute_fibonacci_guard_and_limit (frames : nat) (self : STARKProver) (n : Z) :
  (n < 0 ->
   compute_fibonacci_within frames self n = Raise (ValueError "n must be non-negative")) /\
  (0 <= n ->
   forall message, compute_fibonacci_within frames self n <> Raise (ValueError message)) /\
  (0 <= n -> Z.max 1 n <= Z.of_nat frames ->
   exists result trace,
     compute_fibonacci_within frames self n = Return (result, trace) /\
     compute_fibonacci self n = Return (result, trace) /\
     steps trace <> []) /\
  (0 <= n -> Z.of_nat frames < Z.max 1 n ->
   exists message, compute_fibonacci_within frames self n = Raise (RecursionError message)).
Proof.
  split; [|split; [|split]].
  - intros Hn. unfold compute_fibonacci_within.
    destruct (Z.ltb_spec n 0); [reflexivity|lia].
  - intros Hn message. unfold compute_fibonacci_within.
    destruct (Z.ltb_spec n 0); [lia|].
    destruct (fib_with_trace _ _ _ _) as [[result env]|]; discriminate.
  - intros Hn Hfits. eexists _, _.
    split; [apply compute_fibonacci_within_fits; assumption|].
    split; [apply compute_fibonacci_of_Z, Hn|].
    cbn [steps]. destruct (Z.to_nat n) as [|[|k]]; try discriminate.
    rewrite chain_step, numbered_app. intros Hnil.
    apply app_eq_nil in Hnil as [_ Hnil]. discriminate.
  - intros Hn Hshort. eexists. apply compute_fibonacci_within_exhausted; assumption.
Qed.

Lemma compute_fibonacci_guard_and_limit_witness :
  compute_fibonacci_within 998 (init 128) (-1) =
    Raise (ValueError "n must be non-negative") /\
  (exists result trace, compute_fibonacci_within 998 (init 128) 10 = Return (result, trace)) /\
  (exists message,
     compute_fibonacci_within 998 (init 128) 1000 = Raise (RecursionError message)).
Proof.
  split; [|split].
  - apply (compute_fibonacci_guard_and_limit 998 (init 128) (-1)). lia.
  - destruct (compute_fibonacci_guard_and_limit 998 (init 128) 10)
      as (_ & _ & Hfits & _).
    destruct Hfits as (result & trace & Hrun & _); [lia|lia|].
    exists result, trace. exact Hrun.
  - destruct (compute_fibonacci_guard_and_limit 998 (init 128) 1000)
      as (_ & _ & _ & Hshort).
    apply Hshort; [lia|vm_compute; reflexivity].
Defined.

End RecursionLimit.
